(** * NextChapter (app.py): response extraction and graph construction

    A shallow embedding of the pipeline of [app.py]: the remote completion
    client ([get_recommendations]), the response extractor ([extract_json]),
    the graph normaliser and renderer ([visualize_network],
    [create_tooltip_text]) and the result handling of the main block.

    Python values that can reach the pipeline are exactly the values
    [json.loads] produces, so one inductive type [json] serves as the value
    domain.  Python [str] is modelled by [string], read as the UTF-8 encoding
    of the text.  Exceptions are an explicit result type, and the effects the
    code performs (HTTP requests, sleeps, Streamlit banners) are recorded in a
    trace of events. *)

From Stdlib Require Import Bool Arith ZArith Lia List Ascii String.
Import ListNotations.

Set Warnings "-register-all".

Local Open Scope list_scope.
Local Open Scope string_scope.

(* ====================================================================== *)
(** ** Exceptions and the result type *)
(* ====================================================================== *)

(** The exception classes that the modelled code can meet.  All of them are
    subclasses of [Exception]; [JSONDecodeError] is the only one caught by
    [except json.JSONDecodeError]. *)
Inductive exc : Type :=
| JSONDecodeError
| RecursionError
| ValueError
| AttributeError
| TypeError
| KeyError
| IndexError
| AssertionError
| HTTPError (status : Z)
| RequestException
| OSError
| LoopFuel.  (* not a Python exception: the bound of a model loop was hit;
                [JsonFacts.loads_fuel_free] shows that it never is *)

Inductive res (A : Type) : Type :=
| Ok (a : A)
| Raise (e : exc).
Arguments Ok {A} a.
Arguments Raise {A} e.

Definition res_bind {A B} (m : res A) (f : A -> res B) : res B :=
  match m with
  | Ok a => f a
  | Raise e => Raise e
  end.

Declare Scope res_scope.
Delimit Scope res_scope with res.
Notation "x <- m ;; k" := (res_bind m (fun x => k))
  (at level 61, m at next level, right associativity) : res_scope.

(* ====================================================================== *)
(** ** Python [str] operations on UTF-8 text *)
(* ====================================================================== *)

Module PyStr.

Definition byte (c : ascii) : N := N_of_ascii c.

Fixpoint starts_with (p s : string) : bool :=
  match p, s with
  | EmptyString, _ => true
  | String a p', String b s' => Ascii.eqb a b && starts_with p' s'
  | String _ _, EmptyString => false
  end.

(** [s.replace(old, new)]: the non-overlapping occurrences of [old], found
    from the left, are replaced.  [skip] counts the characters of an
    occurrence that was just replaced and still has to be passed over. *)
Fixpoint replace_from (old new : string) (skip : nat) (s : string) : string :=
  match s with
  | EmptyString => EmptyString
  | String c s' =>
      match skip with
      | S k => replace_from old new k s'
      | O =>
          if starts_with old s
          then new ++ replace_from old new (String.length old - 1) s'
          else String c (replace_from old new 0 s')
      end
  end.

(** With an empty [old], Python puts [new] before every character and at the
    end. *)
Fixpoint intersperse (new : string) (s : string) : string :=
  match s with
  | EmptyString => new
  | String c s' => new ++ String c (intersperse new s')
  end.

Definition replace (s old new : string) : string :=
  match old with
  | EmptyString => intersperse new s
  | _ => replace_from old new 0 s
  end.

(** [str.isspace] characters, recognised at the head of UTF-8 text; the
    result is the number of bytes of the white-space character there (0 when
    the text does not start with one).  ASCII: TAB..CR, FS..US and space;
    then U+0085, U+00A0, U+1680, U+2000..U+200A, U+2028, U+2029, U+202F,
    U+205F and U+3000. *)
Definition space_width (s : string) : nat :=
  match s with
  | EmptyString => 0
  | String a r =>
      let x := byte a in
      if ((9 <=? x) && (x <=? 13) || (28 <=? x) && (x <=? 32))%N then 1
      else
        match r with
        | EmptyString => 0
        | String b r' =>
            let y := byte b in
            if ((x =? 194) && ((y =? 133) || (y =? 160)))%N then 2
            else
              match r' with
              | EmptyString => 0
              | String c _ =>
                  let z := byte c in
                  if ((x =? 225) && (y =? 154) && (z =? 128)
                      || (x =? 226) && (y =? 128)
                         && ((128 <=? z) && (z <=? 138)
                             || (z =? 168) || (z =? 169) || (z =? 175))
                      || (x =? 226) && (y =? 129) && (z =? 159)
                      || (x =? 227) && (y =? 128) && (z =? 128))%N
                  then 3 else 0
              end
        end
  end.

Fixpoint drop (n : nat) (s : string) : string :=
  match n, s with
  | O, _ => s
  | S _, EmptyString => EmptyString
  | S k, String _ s' => drop k s'
  end.

(** [skip] is the number of bytes of the current white-space character that
    are still to be dropped. *)
Fixpoint lstrip_from (skip : nat) (s : string) : string :=
  match s with
  | EmptyString => EmptyString
  | String _ s' =>
      match skip with
      | S k => lstrip_from k s'
      | O =>
          match space_width s with
          | O => s
          | S k => lstrip_from k s'
          end
      end
  end.

Definition lstrip (s : string) : string := lstrip_from 0 s.

Definition all_space (s : string) : bool :=
  match lstrip s with
  | EmptyString => true
  | _ => false
  end.

Fixpoint rstrip (s : string) : string :=
  match s with
  | EmptyString => EmptyString
  | String c s' => if all_space s then EmptyString else String c (rstrip s')
  end.

(** [s.strip()] *)
Definition strip (s : string) : string := rstrip (lstrip s).

Definition is_empty (s : string) : bool :=
  match s with
  | EmptyString => true
  | _ => false
  end.

(** [sub in s] for two strings. *)
Fixpoint contains (sub s : string) : bool :=
  starts_with sub s
  || match s with
     | EmptyString => false
     | String _ s' => contains sub s'
     end.

(** Splits UTF-8 text into its characters, as iterating over a [str] does. *)
Definition char_width (a : ascii) : nat :=
  let x := byte a in
  if (x <? 192)%N then 1
  else if (x <? 224)%N then 2
  else if (x <? 240)%N then 3
  else 4.

Fixpoint chars_from (pending : nat) (cur : string) (s : string) : list string :=
  match s with
  | EmptyString =>
      match cur with
      | EmptyString => []
      | _ => [cur]
      end
  | String a s' =>
      match pending with
      | S k => chars_from k (cur ++ String a "") s'
      | O =>
          match cur with
          | EmptyString => chars_from (char_width a - 1) (String a "") s'
          | _ => cur :: chars_from (char_width a - 1) (String a "") s'
          end
      end
  end.

Definition chars (s : string) : list string := chars_from 0 "" s.

(** The double quote, and JSON text written with single quotes in its
    place: [json_text "{'a': 1}"] is the text with double quotes. *)
Definition dquote : ascii := ascii_of_N 34.

Fixpoint json_text (s : string) : string :=
  match s with
  | EmptyString => EmptyString
  | String c s' =>
      String (if Ascii.eqb c "'" then dquote else c) (json_text s')
  end.

End PyStr.

(* ====================================================================== *)
(** ** Python [float]: IEEE 754 binary64 *)
(* ====================================================================== *)

(** [json.loads] turns a number with a fraction or an exponent into a
    [float].  The pipeline only tests such a value for truth, compares it
    with [==] and prints it with [str]; all three are exact functions of the
    binary64 value, which is kept here as sign, mantissa and exponent. *)
Module Float64.

Local Open Scope Z_scope.

Inductive float64 : Type :=
| FNaN
| FInf (neg : bool)
| FZero (neg : bool)
| FFin (neg : bool) (m : Z) (e : Z).   (* m * 2^e, 0 < m < 2^53, -1074 <= e <= 971 *)

(** [2^k <= p / q] *)
Definition ge_pow2 (p q k : Z) : bool :=
  if 0 <=? k then q * 2 ^ k <=? p else q <=? p * 2 ^ (- k).

(** Nearest binary64 to the positive rational [p / q], ties to even. *)
Definition of_ratio (neg : bool) (p q : Z) : float64 :=
  let k0 := Z.log2 p - Z.log2 q in
  let k := if ge_pow2 p q k0 then k0 else k0 - 1 in
  let e := Z.max (k - 52) (-1074) in
  let num := if 0 <=? e then p else p * 2 ^ (- e) in
  let den := if 0 <=? e then q * 2 ^ e else q in
  let m0 := num / den in
  let r := num mod den in
  let m1 :=
    match 2 * r ?= den with
    | Lt => m0
    | Gt => m0 + 1
    | Eq => if Z.even m0 then m0 else m0 + 1
    end in
  let '(m, e') := if m1 =? 2 ^ 53 then (2 ^ 52, e + 1) else (m1, e) in
  if m =? 0 then FZero neg
  else if 971 <? e' then FInf neg
  else FFin neg m e'.

(** Number of decimal digits of a positive integer. *)
Fixpoint digits_fuel (fuel : nat) (d : Z) : Z :=
  match fuel with
  | O => 0
  | S f => if d <? 10 then 1 else 1 + digits_fuel f (d / 10)
  end.

Definition ndigits (d : Z) : Z := digits_fuel (S (Z.to_nat (Z.log2 d))) d.

(** Nearest binary64 to [d * 10^e10], for [0 <= d].  Values that are
    certainly above the largest float or below half the smallest one are
    settled from the exponent alone. *)
Definition of_decimal (neg : bool) (d e10 : Z) : float64 :=
  if d <=? 0 then FZero neg
  else
    let n := ndigits d in
    if 310 <=? e10 + n - 1 then FInf neg
    else if e10 + n <=? -324 then FZero neg
    else if 0 <=? e10 then of_ratio neg (d * 10 ^ e10) 1
    else of_ratio neg d (10 ^ (- e10)).

Definition is_zero (f : float64) : bool :=
  match f with
  | FZero _ => true
  | _ => false
  end.

(** [f == z] for a float and an integer: exact comparison of the values. *)
Definition eq_int (f : float64) (z : Z) : bool :=
  match f with
  | FNaN | FInf _ => false
  | FZero _ => z =? 0
  | FFin neg m e =>
      let a := if neg then - z else z in
      if 0 <=? e then m * 2 ^ e =? a else m =? a * 2 ^ (- e)
  end.

(** [f == g] for two floats. *)
Definition eqb (f g : float64) : bool :=
  match f, g with
  | FInf a, FInf b => Bool.eqb a b
  | FZero _, FZero _ => true
  | FFin a m e, FFin b n k => Bool.eqb a b && (m =? n) && (e =? k)
  | _, _ => false
  end.

(** *** [repr]: the shortest decimal string that reads back as the float *)

(** [10^t <= p / q] *)
Definition ge_pow10 (p q t : Z) : bool :=
  if 0 <=? t then q * 10 ^ t <=? p else q <=? p * 10 ^ (- t).

(** The [t] with [10^t <= p/q < 10^(t+1)], searched upwards from a lower
    estimate. *)
Fixpoint log10_from (fuel : nat) (p q t : Z) : Z :=
  match fuel with
  | O => t
  | S f => if ge_pow10 p q (t + 1) then log10_from f p q (t + 1) else t
  end.

Definition floor_log10 (p q : Z) : Z :=
  let l2 := Z.log2 p - Z.log2 q in
  log10_from 8 p q ((l2 - 1) * 30102 / 100000 - 1).

(** [floor ((p / q) / 10^s)] and whether the division left a remainder
    below, at or above one half. *)
Definition scaled (p q s : Z) : Z * comparison :=
  let num := if 0 <=? s then p else p * 10 ^ (- s) in
  let den := if 0 <=? s then q * 10 ^ s else q in
  (num / den, 2 * (num mod den) ?= den).

Fixpoint strip_zeros (fuel : nat) (d s : Z) : Z * Z :=
  match fuel with
  | O => (d, s)
  | S f => if (d mod 10 =? 0) && negb (d =? 0)
           then strip_zeros f (d / 10) (s + 1) else (d, s)
  end.

(** Tries [n], [n+1], ... significant digits; returns digits and the power
    of ten they are scaled by. *)
Fixpoint shortest (fuel : nat) (n : Z) (m e p q t : Z) : Z * Z :=
  let s := t - n + 1 in
  let '(lo, half) := scaled p q s in
  let hi := lo + 1 in
  let ok d := match of_decimal false d s with
              | FFin _ m' e' => (m' =? m) && (e' =? e)
              | _ => false
              end in
  let pick :=
    match ok lo, ok hi with
    | true, true =>
        match half with
        | Lt => Some lo
        | Gt => Some hi
        | Eq => Some (if Z.even lo then lo else hi)
        end
    | true, false => Some lo
    | false, true => Some hi
    | false, false => None
    end in
  match pick with
  | Some d => strip_zeros 20 d s
  | None =>
      match fuel with
      | O => (lo, s)
      | S f => shortest f (n + 1) m e p q t
      end
  end.

Local Open Scope string_scope.

Definition digit_char (d : Z) : ascii := ascii_of_N (48 + Z.to_N d).

Fixpoint nat_digits (fuel : nat) (d : Z) (acc : string) : string :=
  match fuel with
  | O => acc
  | S f =>
      let acc' := String (digit_char (d mod 10)) acc in
      if (d <? 10)%Z then acc' else nat_digits f (d / 10) acc'
  end.

(** Decimal digits of a non-negative integer. *)
Definition dec (d : Z) : string :=
  nat_digits (S (Z.to_nat (Z.log2 d))) d "".

Fixpoint zeros (n : nat) : string :=
  match n with
  | O => ""
  | S k => String "0" (zeros k)
  end.

Fixpoint take (n : nat) (s : string) : string :=
  match n, s with
  | S k, String c s' => String c (take k s')
  | _, _ => ""
  end.

(** [repr] of a positive finite float from its shortest digits [ds] and the
    position [decpt] of the decimal point (float_repr_style 'short'). *)
Definition layout (ds : string) (decpt : Z) : string :=
  let n := Z.of_nat (String.length ds) in
  if ((decpt <=? -4) || (16 <? decpt))%Z then
    let x := (decpt - 1)%Z in
    let ex := dec (Z.abs x) in
    let ex2 := if (Z.abs x <? 10)%Z then "0" ++ ex else ex in
    take 1 ds
    ++ (if (1 <? n)%Z then "." ++ PyStr.drop 1 ds else "")
    ++ "e" ++ (if (x <? 0)%Z then "-" else "+") ++ ex2
  else if (decpt <=? 0)%Z then
    "0." ++ zeros (Z.to_nat (- decpt)) ++ ds
  else if (n <=? decpt)%Z then
    ds ++ zeros (Z.to_nat (decpt - n)) ++ ".0"
  else
    take (Z.to_nat decpt) ds ++ "." ++ PyStr.drop (Z.to_nat decpt) ds.

(** [repr(f)], which is also [str(f)]. *)
Definition repr (f : float64) : string :=
  match f with
  | FNaN => "nan"
  | FInf neg => if neg then "-inf" else "inf"
  | FZero neg => if neg then "-0.0" else "0.0"
  | FFin neg m e =>
      let p := if (0 <=? e)%Z then (m * 2 ^ e)%Z else m in
      let q := if (0 <=? e)%Z then 1%Z else (2 ^ (- e))%Z in
      let t := floor_log10 p q in
      let '(d, s) := shortest 17 1 m e p q t in
      let ds := dec d in
      let decpt := (Z.of_nat (String.length ds) + s)%Z in
      (if neg then "-" else "") ++ layout ds decpt
  end.

End Float64.

(* ====================================================================== *)
(** ** Python values *)
(* ====================================================================== *)

(** The values [json.loads] returns: [None], [bool], [int], [float], [str],
    [list] and [dict] with [str] keys.  A [dict] keeps its insertion order
    and has no two entries with the same key. *)
Inductive json : Type :=
| JNull
| JBool (b : bool)
| JInt (z : Z)
| JFloat (f : Float64.float64)
| JStr (s : string)
| JArr (l : list json)
| JObj (d : list (string * json)).

(** What the interpreter and its libraries contribute beyond the language:
    how deep the JSON decoder may still recurse when [json.loads] is called
    (taken to be the same at each call), the digit limit of [int]
    conversions (0 switches it off), and the printable characters of the
    Unicode database, which [repr] of a [str] consults for the characters
    beyond ASCII. *)
Record interp : Type := {
  recursion_limit : nat;
  int_max_str_digits : nat;
  unicode_printable : N -> bool
}.

Module Py.

(** Truth value testing: [bool(v)]. *)
Definition truthy (v : json) : bool :=
  match v with
  | JNull => false
  | JBool b => b
  | JInt z => negb (z =? 0)%Z
  | JFloat f => negb (Float64.is_zero f)
  | JStr s => negb (PyStr.is_empty s)
  | JArr l => match l with [] => false | _ => true end
  | JObj d => match d with [] => false | _ => true end
  end.

(** [a or b] *)
Definition or_ (a b : json) : json := if truthy a then a else b.

(** *** Dictionaries *)

Fixpoint dict_get (k : string) (d : list (string * json)) : option json :=
  match d with
  | [] => None
  | (k', v) :: d' => if String.eqb k k' then Some v else dict_get k d'
  end.

(** [d[k] = v]: an existing key keeps its place, a new one goes last. *)
Fixpoint dict_set (k : string) (v : json) (d : list (string * json))
  : list (string * json) :=
  match d with
  | [] => [(k, v)]
  | (k', v') :: d' =>
      if String.eqb k k' then (k, v) :: d' else (k', v') :: dict_set k v d'
  end.

Definition dict_has (k : string) (d : list (string * json)) : bool :=
  match dict_get k d with
  | Some _ => true
  | None => false
  end.

(** [d.get(k, default)] for a [dict]. *)
Definition lookup (d : list (string * json)) (k : string) (default : json)
  : json :=
  match dict_get k d with
  | Some x => x
  | None => default
  end.

(** [v.get(k, default)]; only a [dict] has the method. *)
Definition get (v : json) (k : string) (default : json) : res json :=
  match v with
  | JObj d => Ok (lookup d k default)
  | _ => Raise AttributeError
  end.

(** *** Equality [a == b] *)

Definition as_int (v : json) : option Z :=
  match v with
  | JBool b => Some (if b then 1 else 0)%Z
  | JInt z => Some z
  | _ => None
  end.

Fixpoint eq (a b : json) {struct a} : bool :=
  match a, b with
  | JNull, JNull => true
  | JStr s, JStr t => String.eqb s t
  | JFloat f, JFloat g => Float64.eqb f g
  | JFloat f, (JBool _ | JInt _) =>
      match as_int b with
      | Some z => Float64.eq_int f z
      | None => false
      end
  | (JBool _ | JInt _), JFloat g =>
      match as_int a with
      | Some z => Float64.eq_int g z
      | None => false
      end
  | (JBool _ | JInt _), (JBool _ | JInt _) =>
      match as_int a, as_int b with
      | Some x, Some y => (x =? y)%Z
      | _, _ => false
      end
  | JArr l, JArr m =>
      (fix eq_list (l m : list json) {struct l} : bool :=
         match l, m with
         | [], [] => true
         | x :: l', y :: m' => eq x y && eq_list l' m'
         | _, _ => false
         end) l m
  | JObj d, JObj d' =>
      Nat.eqb (List.length d) (List.length d')
      && (fix eq_dict (d : list (string * json)) : bool :=
            match d with
            | [] => true
            | (k, x) :: r =>
                match dict_get k d' with
                | Some y => eq x y
                | None => false
                end && eq_dict r
            end) d
  | _, _ => false
  end.

(** [x in l] for a list. *)
Definition mem (x : json) (l : list json) : bool :=
  existsb (fun y => eq x y) l.

(** *** [str] and [repr] *)

Definition hex_digit (n : N) : ascii :=
  if (n <? 10)%N then ascii_of_N (48 + n) else ascii_of_N (87 + n).

Fixpoint hex (width : nat) (n : N) (acc : string) : string :=
  match width with
  | O => acc
  | S w => hex w (n / 16) (String (hex_digit (n mod 16)) acc)
  end.

(** Code point of one UTF-8 encoded character. *)
Definition code_point (c : string) : N :=
  match c with
  | String a EmptyString => PyStr.byte a
  | String a (String b EmptyString) =>
      (PyStr.byte a mod 32) * 64 + PyStr.byte b mod 64
  | String a (String b (String c EmptyString)) =>
      ((PyStr.byte a mod 16) * 64 + PyStr.byte b mod 64) * 64
      + PyStr.byte c mod 64
  | String a (String b (String c (String d _))) =>
      (((PyStr.byte a mod 8) * 64 + PyStr.byte b mod 64) * 64
       + PyStr.byte c mod 64) * 64 + PyStr.byte d mod 64
  | EmptyString => 0
  end%N.

Definition repr_char (py : interp) (quote : ascii) (c : string) : string :=
  let cp := code_point c in
  if (cp =? PyStr.byte quote)%N || (cp =? 92)%N then String "\" c
  else if (cp =? 9)%N then "\t"
  else if (cp =? 10)%N then "\n"
  else if (cp =? 13)%N then "\r"
  else if (cp <? 32)%N || (cp =? 127)%N then "\x" ++ hex 2 cp ""
  else if (cp <? 127)%N then c
  else if unicode_printable py cp then c
  else if (cp <? 256)%N then "\x" ++ hex 2 cp ""
  else if (cp <? 65536)%N then "\u" ++ hex 4 cp ""
  else "\U" ++ hex 8 cp "".

(** [repr(s)] for a [str]: single quotes, unless the text has a single quote
    and no double quote. *)
Definition repr_str (py : interp) (s : string) : string :=
  let quote :=
    if PyStr.contains "'" s && negb (PyStr.contains (String PyStr.dquote "") s)
    then PyStr.dquote else "'"%char in
  String quote
    (String.concat "" (map (repr_char py quote) (PyStr.chars s))
       ++ String quote "").

Definition str_int (z : Z) : string :=
  if (z <? 0)%Z then "-" ++ Float64.dec (- z) else Float64.dec z.

Fixpoint repr (py : interp) (v : json) : string :=
  match v with
  | JNull => "None"
  | JBool b => if b then "True" else "False"
  | JInt z => str_int z
  | JFloat f => Float64.repr f
  | JStr s => repr_str py s
  | JArr l => "[" ++ String.concat ", " (map (repr py) l) ++ "]"
  | JObj d =>
      "{" ++ String.concat ", "
               (map (fun kv => repr_str py (fst kv) ++ ": " ++ repr py (snd kv)) d)
          ++ "}"
  end.

(** [str(v)], which is also what an f-string puts for [{v}]. *)
Definition str (py : interp) (v : json) : string :=
  match v with
  | JStr s => s
  | _ => repr py v
  end.

(** *** Subscripts, membership and iteration *)

(** [v[k]] for a [str] key. *)
Definition getitem_key (v : json) (k : string) : res json :=
  match v with
  | JObj d =>
      match dict_get k d with
      | Some x => Ok x
      | None => Raise KeyError
      end
  | _ => Raise TypeError
  end.

(** [v[0]] *)
Definition getitem_0 (v : json) : res json :=
  match v with
  | JArr l =>
      match l with
      | x :: _ => Ok x
      | [] => Raise IndexError
      end
  | JStr s =>
      match PyStr.chars s with
      | c :: _ => Ok (JStr c)
      | [] => Raise IndexError
      end
  | JObj _ => Raise KeyError
  | _ => Raise TypeError
  end.

(** [k in v] for a [str] [k]. *)
Definition contains (k : string) (v : json) : res bool :=
  match v with
  | JObj d => Ok (dict_has k d)
  | JArr l => Ok (mem (JStr k) l)
  | JStr s => Ok (PyStr.contains k s)
  | _ => Raise TypeError
  end.

(** The items a [for] loop over [v] visits. *)
Definition iter (v : json) : res (list json) :=
  match v with
  | JArr l => Ok l
  | JObj d => Ok (map (fun kv => JStr (fst kv)) d)
  | JStr s => Ok (map JStr (PyStr.chars s))
  | _ => Raise TypeError
  end.

End Py.

(** A configuration to run the model with: CPython's defaults, and the
    non-printable ranges of the Basic Multilingual Plane (controls, format
    characters, separators, surrogates, private use). *)
Definition cpython : interp := {|
  recursion_limit := 1000;
  int_max_str_digits := 4300;
  unicode_printable := fun cp =>
    negb ((cp <? 161) || (cp =? 173) || (cp =? 5760)
          || (8192 <=? cp) && (cp <=? 8207)
          || (8232 <=? cp) && (cp <=? 8239)
          || (8287 <=? cp) && (cp <=? 8303)
          || (cp =? 12288)
          || (55296 <=? cp) && (cp <=? 63743)
          || (cp =? 65279)
          || (65529 <=? cp) && (cp <=? 65531))%N
|}.

(* ====================================================================== *)
(** ** [json.loads] *)
(* ====================================================================== *)

(** The decoder of the standard library ([json.decoder], [json.scanner] and
    their C accelerator), which [extract_json] calls twice.  A parser takes
    the text that starts at the current index and returns the value together
    with the text after it. *)
Module Json.

Definition parsed : Type := res (json * string).

Definition is_ws (c : ascii) : bool :=
  let x := PyStr.byte c in
  ((x =? 32) || (x =? 9) || (x =? 10) || (x =? 13))%N.

(** [WHITESPACE.match(s, idx).end()] *)
Fixpoint skip_ws (s : string) : string :=
  match s with
  | String c s' => if is_ws c then skip_ws s' else s
  | EmptyString => EmptyString
  end.

Definition is_digit (c : ascii) : bool :=
  let x := PyStr.byte c in ((48 <=? x) && (x <=? 57))%N.

Definition hex_value (c : ascii) : option N :=
  let x := PyStr.byte c in
  if ((48 <=? x) && (x <=? 57))%N then Some (x - 48)%N
  else if ((97 <=? x) && (x <=? 102))%N then Some (x - 87)%N
  else if ((65 <=? x) && (x <=? 70))%N then Some (x - 55)%N
  else None.

(** The four hexadecimal digits of a [\uXXXX] escape. *)
Definition hex4 (s : string) : option N :=
  match s with
  | String a (String b (String c (String d _))) =>
      match hex_value a, hex_value b, hex_value c, hex_value d with
      | Some w, Some x, Some y, Some z =>
          Some (((w * 16 + x) * 16 + y) * 16 + z)%N
      | _, _, _, _ => None
      end
  | _ => None
  end.

Definition chr (n : N) : ascii := ascii_of_N n.

(** UTF-8 encoding of a code point; a lone surrogate is encoded like any
    other three-byte character. *)
Definition utf8 (cp : N) : string :=
  (if cp <? 128 then String (chr cp) ""
   else if cp <? 2048 then
     String (chr (192 + cp / 64)) (String (chr (128 + cp mod 64)) "")
   else if cp <? 65536 then
     String (chr (224 + cp / 4096))
       (String (chr (128 + (cp / 64) mod 64))
          (String (chr (128 + cp mod 64)) ""))
   else
     String (chr (240 + cp / 262144))
       (String (chr (128 + (cp / 4096) mod 64))
          (String (chr (128 + (cp / 64) mod 64))
             (String (chr (128 + cp mod 64)) ""))))%N.

(** The escape after a backslash: the text it stands for and the number of
    characters it takes after the backslash.  A high surrogate that is
    followed by the escape of a low surrogate is joined with it. *)
Definition escape (s : string) : option (string * nat) :=
  match s with
  | EmptyString => None
  | String e r =>
      let x := PyStr.byte e in
      (if (x =? 34) || (x =? 92) || (x =? 47) then Some (String e "", 1%nat)
       else if x =? 98 then Some (String (chr 8) "", 1%nat)
       else if x =? 102 then Some (String (chr 12) "", 1%nat)
       else if x =? 110 then Some (String (chr 10) "", 1%nat)
       else if x =? 114 then Some (String (chr 13) "", 1%nat)
       else if x =? 116 then Some (String (chr 9) "", 1%nat)
       else if x =? 117 then
         match hex4 r with
         | None => None
         | Some hi =>
             let r4 := PyStr.drop 4 r in
             let low :=
               if (55296 <=? hi) && (hi <=? 56319) && PyStr.starts_with "\u" r4
               then match hex4 (PyStr.drop 2 r4) with
                    | Some lo =>
                        if (56320 <=? lo) && (lo <=? 57343) then Some lo else None
                    | None => None
                    end
               else None in
             match low with
             | Some lo =>
                 Some (utf8 (65536 + (hi - 55296) * 1024 + (lo - 56320)), 11%nat)
             | None => Some (utf8 hi, 5%nat)
             end
         end
       else None)%N
  end.

(** [scanstring(s, end, strict=True)], from the character after the opening
    quote.  [skip] counts the characters of an escape still to pass over. *)
Fixpoint scanstring_from (skip : nat) (s : string) : res (string * string) :=
  match s with
  | EmptyString => Raise JSONDecodeError
  | String c s' =>
      match skip with
      | S k => scanstring_from k s'
      | O =>
          if Ascii.eqb c PyStr.dquote then Ok ("", s')
          else if Ascii.eqb c "\" then
            match escape s' with
            | Some (text, n) =>
                match scanstring_from n s' with
                | Ok (content, rest) => Ok (text ++ content, rest)
                | Raise e => Raise e
                end
            | None => Raise JSONDecodeError
            end
          else if (PyStr.byte c <? 32)%N then Raise JSONDecodeError
          else
            match scanstring_from 0 s' with
            | Ok (content, rest) => Ok (String c content, rest)
            | Raise e => Raise e
            end
      end
  end.

Definition scanstring (s : string) : res (string * string) :=
  scanstring_from 0 s.

(** The longest prefix of digits and what follows it. *)
Fixpoint span_digits (s : string) : string * string :=
  match s with
  | String c s' =>
      if is_digit c
      then let '(ds, rest) := span_digits s' in (String c ds, rest)
      else ("", s)
  | EmptyString => ("", "")
  end.

Fixpoint digits_value (acc : Z) (ds : string) : Z :=
  match ds with
  | EmptyString => acc
  | String c ds' => digits_value (acc * 10 + Z.of_N (PyStr.byte c - 48)) ds'
  end.

(** [int(text)] meets the conversion limit when the text has more digits
    than the limit allows (the check starts above 640 digits). *)
Definition over_digit_limit (py : interp) (ds : string) : bool :=
  let n := String.length ds in
  (0 <? int_max_str_digits py)%nat
  && (int_max_str_digits py <? n)%nat && (640 <? n)%nat.

(** [_match_number]: integer part, then a fraction if a digit follows the
    point, then an exponent if a digit follows [e] and its sign. *)
Definition match_number (py : interp) (s : string) : parsed :=
  let '(neg, s1) :=
    match s with
    | String "-" r => (true, r)
    | _ => (false, s)
    end in
  match s1 with
  | EmptyString => Raise JSONDecodeError
  | String c r =>
      if negb (is_digit c) then Raise JSONDecodeError
      else
        let '(int_ds, s2) :=
          if Ascii.eqb c "0" then ("0", r)
          else let '(ds, rest) := span_digits r in (String c ds, rest) in
        let '(frac_ds, s3) :=
          match s2 with
          | String "." r2 =>
              match span_digits r2 with
              | (String d ds, rest) => (String d ds, rest)
              | _ => ("", s2)
              end
          | _ => ("", s2)
          end in
        let '(expo, s4) :=
          match s3 with
          | String e r3 =>
              if Ascii.eqb e "e" || Ascii.eqb e "E" then
                let '(eneg, r4) :=
                  match r3 with
                  | String "-" r' => (true, r')
                  | String "+" r' => (false, r')
                  | _ => (false, r3)
                  end in
                match span_digits r4 with
                | (String d ds, rest) =>
                    let x := digits_value 0 (String d ds) in
                    (Some (if eneg then - x else x)%Z, rest)
                | _ => (None, s3)
                end
              else (None, s3)
          | _ => (None, s3)
          end in
        match frac_ds, expo with
        | EmptyString, None =>
            if over_digit_limit py int_ds then Raise ValueError
            else
              let z := digits_value 0 int_ds in
              Ok (JInt (if neg then - z else z)%Z, s4)
        | _, _ =>
            let e10 := match expo with Some x => x | None => 0%Z end in
            Ok (JFloat
                  (Float64.of_decimal neg
                     (digits_value 0 (int_ds ++ frac_ds))
                     (e10 - Z.of_nat (String.length frac_ds))),
                s4)
        end
  end.

(** The members of an object after the first key was found to be due: key,
    colon, value, then a comma or the closing brace. *)
Fixpoint members (scan_once : string -> parsed) (fuel : nat) (s : string)
  (acc : list (string * json)) : parsed :=
  match fuel with
  | O => Raise LoopFuel
  | S fuel' =>
      match s with
      | String c s0 =>
          if negb (Ascii.eqb c PyStr.dquote) then Raise JSONDecodeError
          else
            match scanstring s0 with
            | Raise e => Raise e
            | Ok (key, s1) =>
                match skip_ws s1 with
                | String ":" s2 =>
                    match scan_once (skip_ws s2) with
                    | Raise e => Raise e
                    | Ok (val, s3) =>
                        let acc' := Py.dict_set key val acc in
                        match skip_ws s3 with
                        | String "}" s4 => Ok (JObj acc', s4)
                        | String "," s4 => members scan_once fuel' (skip_ws s4) acc'
                        | _ => Raise JSONDecodeError
                        end
                    end
                | _ => Raise JSONDecodeError
                end
            end
      | EmptyString => Raise JSONDecodeError
      end
  end.

(** The elements of a non-empty array: a value, then a comma or the closing
    bracket.  [acc] holds the elements read so far, last first. *)
Fixpoint elements (scan_once : string -> parsed) (fuel : nat) (s : string)
  (acc : list json) : parsed :=
  match fuel with
  | O => Raise LoopFuel
  | S fuel' =>
      match scan_once s with
      | Raise e => Raise e
      | Ok (val, s1) =>
          match skip_ws s1 with
          | String "]" s2 => Ok (JArr (rev (val :: acc)), s2)
          | String "," s2 => elements scan_once fuel' (skip_ws s2) (val :: acc)
          | _ => Raise JSONDecodeError
          end
      end
  end.

(** [scan_once(s, idx)].  Entering an object or an array takes one level of
    the recursion budget [depth]; with none left the interpreter raises
    [RecursionError]. *)
Fixpoint scan_once (py : interp) (depth : nat) (s : string) {struct depth}
  : parsed :=
  match s with
  | EmptyString => Raise JSONDecodeError
  | String c s' =>
      if Ascii.eqb c PyStr.dquote then
        match scanstring s' with
        | Ok (text, rest) => Ok (JStr text, rest)
        | Raise e => Raise e
        end
      else if Ascii.eqb c "{" then
        match depth with
        | O => Raise RecursionError
        | S d =>
            match skip_ws s' with
            | String "}" rest => Ok (JObj [], rest)
            | s1 => members (scan_once py d) (S (String.length s1)) s1 []
            end
        end
      else if Ascii.eqb c "[" then
        match depth with
        | O => Raise RecursionError
        | S d =>
            match skip_ws s' with
            | String "]" rest => Ok (JArr [], rest)
            | s1 => elements (scan_once py d) (S (String.length s1)) s1 []
            end
        end
      else if PyStr.starts_with "null" s then Ok (JNull, PyStr.drop 4 s)
      else if PyStr.starts_with "true" s then Ok (JBool true, PyStr.drop 4 s)
      else if PyStr.starts_with "false" s then Ok (JBool false, PyStr.drop 5 s)
      else if PyStr.starts_with "NaN" s then
        Ok (JFloat Float64.FNaN, PyStr.drop 3 s)
      else if PyStr.starts_with "Infinity" s then
        Ok (JFloat (Float64.FInf false), PyStr.drop 8 s)
      else if PyStr.starts_with "-Infinity" s then
        Ok (JFloat (Float64.FInf true), PyStr.drop 9 s)
      else match_number py s
  end.

Definition bom : string :=
  String (chr 239) (String (chr 187) (String (chr 191) "")).

(** [json.loads(s)] for a [str]: no byte order mark, one value between
    optional white space, and nothing after it. *)
Definition loads (py : interp) (s : string) : res json :=
  if PyStr.starts_with bom s then Raise JSONDecodeError
  else
    match scan_once py (recursion_limit py) (skip_ws s) with
    | Raise e => Raise e
    | Ok (v, rest) =>
        match skip_ws rest with
        | EmptyString => Ok v
        | _ => Raise JSONDecodeError
        end
    end.

(** The exceptions [json.loads] can raise. *)
Definition decoder_error (e : exc) : Prop :=
  e = JSONDecodeError \/ e = RecursionError \/ e = ValueError.

(** A parser result that is an error of the decoder, or a value with a
    strictly shorter rest of the text. *)
Definition consumes (s : string) (p : parsed) : Prop :=
  match p with
  | Ok (_, rest) => (String.length rest < String.length s)%nat
  | Raise e => decoder_error e
  end.

End Json.

(* ====================================================================== *)
(** ** [re.search] with the pattern of [extract_json] *)
(* ====================================================================== *)

Module Re.

(** The text up to and including the last [close] in [s]. *)
Fixpoint upto_last (close : ascii) (s : string) : option string :=
  match s with
  | EmptyString => None
  | String c s' =>
      match upto_last close s' with
      | Some m => Some (String c m)
      | None => if Ascii.eqb c close then Some (String c "") else None
      end
  end.

(** [re.search(r'(\{[\s\S]*\}|\[[\s\S]*\])', text)], giving [match.group(0)].
    The search tries the start positions from the left; at a brace the first
    alternative runs greedily to the last closing brace, at a bracket the
    second one runs to the last closing bracket; a position whose
    alternative finds no closing character is passed over. *)
Fixpoint search (text : string) : option string :=
  match text with
  | EmptyString => None
  | String c s' =>
      if Ascii.eqb c "{" then
        match upto_last "}" s' with
        | Some m => Some (String c m)
        | None => search s'
        end
      else if Ascii.eqb c "[" then
        match upto_last "]" s' with
        | Some m => Some (String c m)
        | None => search s'
        end
      else search s'
  end.

End Re.

(* ====================================================================== *)
(** ** [pyvis.network.Network] *)
(* ====================================================================== *)

(** The part of pyvis the renderer drives: [Network.add_node] and
    [Network.add_edge] of pyvis/network.py, for the undirected network that
    [Network(height, width, bgcolor, font_color)] makes.  Both methods check
    their arguments with [assert] statements: [add_node] that the id is a
    [str] or an [int], [add_edge] that [source in self.get_nodes()] and
    [to in self.get_nodes()]. *)
Module Pyvis.

Record node_options : Type := {
  node_id : json;
  node_label : json;
  node_title : string;
  node_color : string;
  node_size : Z
}.

Record edge_options : Type := {
  edge_from : json;
  edge_to : json;
  edge_label : json;
  edge_title : json
}.

Record network : Type := {
  nodes : list node_options;
  node_ids : list json;
  edges : list edge_options
}.

(** [Network(height=..., width=..., bgcolor=..., font_color=...)] *)
Definition empty : network := {| nodes := []; node_ids := []; edges := [] |}.

(** [net.add_node(n_id, label=..., title=..., color=..., size=...)]: the id
    must be a [str] or an [int] ([bool] is a subclass of [int]); a node whose
    id is already there is not added again. *)
Definition add_node (net : network) (n_id label : json) (title color : string)
  (size : Z) : res network :=
  match n_id with
  | JStr _ | JInt _ | JBool _ =>
      let shown := if Py.truthy label then label else n_id in
      if Py.mem n_id (node_ids net) then Ok net
      else Ok {| nodes := nodes net ++ [ {| node_id := n_id;
                                           node_label := shown;
                                           node_title := title;
                                           node_color := color;
                                           node_size := size |} ];
                 node_ids := node_ids net ++ [n_id];
                 edges := edges net |}
  | _ => Raise AssertionError
  end.

(** [net.add_edge(source, to, label=..., title=...)]: both ends must be ids
    of nodes of the network; an edge between two nodes that are already
    joined, in either direction, is not added again. *)
Definition joined (net : network) (source to : json) : bool :=
  existsb (fun e =>
             Py.eq source (edge_to e) && Py.eq to (edge_from e)
             || Py.eq source (edge_from e) && Py.eq to (edge_to e))
          (edges net).

Definition add_edge (net : network) (source to label title : json)
  : res network :=
  if negb (Py.mem source (node_ids net)) then Raise AssertionError
  else if negb (Py.mem to (node_ids net)) then Raise AssertionError
  else
    let edge_exists := joined net source to in
    if edge_exists then Ok net
    else Ok {| nodes := nodes net;
               node_ids := node_ids net;
               edges := edges net ++ [ {| edge_from := source;
                                          edge_to := to;
                                          edge_label := label;
                                          edge_title := title |} ] |}.

End Pyvis.

(* ====================================================================== *)
(** ** The application *)
(* ====================================================================== *)

Inductive event : Type :=
| Post                                         (* requests.post(url, ...) *)
| Sleep (seconds : Z)                          (* time.sleep *)
| StError (text : string) (detail : option exc)  (* st.error *)
| StSuccess (text : string)                    (* st.success *)
| ComponentsHtml (html : string) (height : Z)  (* components.html *)
| StInfo                                       (* st.info: setup guidance *)
| StStop.                                      (* st.stop *)

(** What [requests.post] does on one attempt: it raises, or it returns a
    response with a status code and a body. *)
Inductive http_reply : Type :=
| NoReply (e : exc)
| Reply (status_code : Z) (body : string).

Module App.

Definition nl : string := String (ascii_of_N 10) "".

(** *** 3. Retrieve API key *)

Definition api_key_text : string :=
  "⚠️ Please check your API key configuration.".

(** [secret] is the entry of [st.secrets] under GOOGLE_API_KEY, if there is
    one.  Without a key the script shows the setup guidance and stops. *)
Definition load_api_key (secret : option string) : list event * option string :=
  match secret with
  | Some (String c k) => ([], Some (String c k))
  | _ => ([StError api_key_text None; StInfo; StStop], None)
  end.

(** *** 5. Plain-text tooltip generator *)

(** The f-string of the tooltip, from the badge and the four texts. *)
Definition tooltip_format (badge book_title author reason summary : string)
  : string :=
  badge ++ nl ++ nl ++ "📚 " ++ book_title ++ nl
  ++ "✍️ " ++ author ++ nl ++ nl
  ++ "💡 Why this book:" ++ nl ++ reason ++ nl ++ nl
  ++ "📖 Summary:" ++ nl ++ summary.

Definition badge_of (group : json) : string :=
  if Py.eq group (JStr "Seed") then "🔴 Your Input Book"
  else if Py.eq group (JStr "Level2") then "🟡 Deep Recommendation"
  else "🔵 Recommended Book".

Definition create_tooltip_text (py : interp) (node_data : json) : res string :=
  (title <- Py.get node_data "title" JNull ;;
   id <- Py.get node_data "id" JNull ;;
   let book_title := Py.or_ title (Py.or_ id (JStr "Untitled")) in
   author <- Py.get node_data "author" (JStr "Unknown Author") ;;
   reason <- Py.get node_data "reason"
               (JStr "No recommendation reason provided.") ;;
   summary <- Py.get node_data "summary" (JStr "No summary available.") ;;
   group <- Py.get node_data "group" (JStr "Recommended") ;;
   Ok (tooltip_format (badge_of group) (Py.str py book_title)
         (Py.str py author) (Py.str py reason) (Py.str py summary)))%res.

(** *** 6. JSON extraction helper *)

Definition extract_json (py : interp) (text : string) : res json :=
  match Json.loads py text with
  | Ok v => Ok v
  | Raise JSONDecodeError =>
      match Re.search text with
      | Some m =>
          match Json.loads py m with
          | Ok v => Ok v
          | Raise _ => Ok JNull
          end
      | None => Ok JNull
      end
  | Raise e => Raise e
  end.

(** *** 7. Graph generation logic *)

Definition max_retries : nat := 3.
Definition retry_delays : list Z := [2; 5; 10]%Z.

Definition rate_limit_text : string :=
  "⏳ API rate limit exceeded (429 error). Please wait and try again.".
Definition communication_text : string := "❌ Communication error: ".

(** [response.raise_for_status()] *)
Definition raise_for_status (status_code : Z) : res unit :=
  if ((400 <=? status_code) && (status_code <? 600))%Z
  then Raise (HTTPError status_code) else Ok tt.

(** [raw_text.replace("```json", "").replace("```", "").strip()] *)
Definition clean (raw_text : json) : res string :=
  match raw_text with
  | JStr s =>
      Ok (PyStr.strip (PyStr.replace (PyStr.replace s "```json" "") "```" ""))
  | _ => Raise AttributeError
  end.

(** Lines 172 to 181: what the [try] block does with a response that was
    neither rate limited nor put off for a retry.  [response.json()] is
    [json.loads] on the body; the exception it raises for a body that is no
    JSON is caught by the handler like every other. *)
Definition read_response (py : interp) (status_code : Z) (body : string)
  : res json :=
  (_ <- raise_for_status status_code ;;
   result <- Json.loads py body ;;
   has <- Py.contains "candidates" result ;;
   if has then
     candidates <- Py.getitem_key result "candidates" ;;
     if Py.truthy candidates then
       first <- Py.getitem_0 candidates ;;
       content <- Py.getitem_key first "content" ;;
       parts <- Py.getitem_key content "parts" ;;
       part <- Py.getitem_0 parts ;;
       raw_text <- Py.getitem_key part "text" ;;
       cleaned_text <- clean raw_text ;;
       extract_json py cleaned_text
     else Ok JNull
   else Ok JNull)%res.

(** One pass through the body of the [for] loop ends the function with a
    value or goes on to the next attempt. *)
Inductive step : Type :=
| Return (data : json)
| Continue.

(** The [except Exception] handler. *)
Definition on_exception (attempt : nat) (e : exc) : list event * step :=
  if (attempt <? max_retries - 1)%nat
  then ([Sleep (nth attempt retry_delays 0%Z)], Continue)
  else ([StError communication_text (Some e)], Return JNull).

Definition attempt_body (py : interp) (attempt : nat) (reply : http_reply)
  : list event * step :=
  match reply with
  | NoReply e => on_exception attempt e
  | Reply status_code body =>
      if (status_code =? 429)%Z then
        ([StError rate_limit_text None], Return JNull)
      else if (status_code =? 503)%Z && (attempt <? max_retries - 1)%nat then
        ([Sleep (nth attempt retry_delays 0%Z)], Continue)
      else
        match read_response py status_code body with
        | Ok data => ([], Return data)
        | Raise e => on_exception attempt e
        end
  end.

(** [for attempt in range(max_retries)], from [attempt] on with [todo]
    attempts left; [server attempt] is the outcome of the request of that
    attempt.  After the last attempt the function returns [None]. *)
Fixpoint attempts (py : interp) (server : nat -> http_reply)
  (todo attempt : nat) : list event * json :=
  match todo with
  | O => ([], JNull)
  | S todo' =>
      let '(evs, st) := attempt_body py attempt (server attempt) in
      match st with
      | Return data => (Post :: evs, data)
      | Continue =>
          let '(evs', data) := attempts py server todo' (S attempt) in
          ((Post :: evs ++ evs')%list, data)
      end
  end.

(** One execution of the function body.  ([st.cache_data] keeps the value
    for an hour and skips the body for the same titles meanwhile.) *)
Definition get_recommendations (py : interp) (server : nat -> http_reply)
  : list event * json :=
  attempts py server max_retries 0.

(** The requests and the waits of a trace. *)
Definition posts (evs : list event) : nat :=
  List.length (filter (fun ev => match ev with Post => true | _ => false end) evs).

Fixpoint sleeps (evs : list event) : list Z :=
  match evs with
  | [] => []
  | Sleep d :: evs' => d :: sleeps evs'
  | _ :: evs' => sleeps evs'
  end.

(** *** 8. Pyvis visualization *)

(** Colour and size of a node by its group. *)
Definition marker_of (group : json) : string * Z :=
  if Py.eq group (JStr "Seed") then ("#FF6B6B", 50%Z)
  else if Py.eq group (JStr "Level2") then ("#FFD93D", 25%Z)
  else ("#4ECDC4", 35%Z).

Record add_node_call : Type := {
  arg_id : json;
  arg_label : json;
  arg_title : string;
  arg_color : string;
  arg_size : Z
}.

(** The body of the loop over the nodes, up to the call of [net.add_node]:
    the arguments of that call. *)
Definition node_call (py : interp) (node : json) : res add_node_call :=
  (id0 <- Py.get node "id" JNull ;;
   title <- Py.get node "title" JNull ;;
   let node_label := Py.or_ title (JStr (Py.str py id0)) in
   let node_id := if Py.truthy id0 then id0 else node_label in
   let node' :=
     match node with
     | JObj d => if Py.truthy id0 then node
                 else JObj (Py.dict_set "id" node_id d)
     | _ => node
     end in
   group <- Py.get node' "group" (JStr "Recommended") ;;
   tooltip_text <- create_tooltip_text py node' ;;
   Ok {| arg_id := node_id; arg_label := node_label;
         arg_title := tooltip_text; arg_color := fst (marker_of group);
         arg_size := snd (marker_of group) |})%res.

Record add_edge_call : Type := {
  arg_source : json;
  arg_target : json;
  arg_edge_label : json
}.

(** The body of the loop over the edges: the call of [net.add_edge], when
    the guard lets it be made. *)
Definition edge_call (edge : json) : res (option add_edge_call) :=
  (source <- Py.get edge "source" JNull ;;
   target <- Py.get edge "target" JNull ;;
   label <- Py.get edge "label" (JStr "Related") ;;
   if Py.truthy source && Py.truthy target
   then Ok (Some {| arg_source := source; arg_target := target;
                    arg_edge_label := label |})
   else Ok None)%res.

Fixpoint add_nodes (py : interp) (net : Pyvis.network) (l : list json)
  : res Pyvis.network :=
  match l with
  | [] => Ok net
  | node :: l' =>
      (c <- node_call py node ;;
       net' <- Pyvis.add_node net (arg_id c) (arg_label c) (arg_title c)
                 (arg_color c) (arg_size c) ;;
       add_nodes py net' l')%res
  end.

Fixpoint add_edges (net : Pyvis.network) (l : list json) : res Pyvis.network :=
  match l with
  | [] => Ok net
  | edge :: l' =>
      (c <- edge_call edge ;;
       net' <- match c with
               | Some a => Pyvis.add_edge net (arg_source a) (arg_target a)
                             (arg_edge_label a) (arg_edge_label a)
               | None => Ok net
               end ;;
       add_edges net' l')%res
  end.

(** Lines 195 to 306: the network as it stands before it is saved; [None]
    is the early [return None] for a value that is not a graph.
    ([net.set_options] stores the layout options, a constant of the
    program, and is left out.) *)
Definition build_network (py : interp) (data : json)
  : res (option Pyvis.network) :=
  let data :=
    match data with
    | JArr l => JObj [("nodes", data); ("edges", JArr [])]
    | _ => data
    end in
  match data with
  | JObj d =>
      if negb (Py.dict_has "nodes" d) then Ok None
      else
        (nodes <- Py.get data "nodes" (JArr []) ;;
         node_list <- Py.iter nodes ;;
         net <- add_nodes py Pyvis.empty node_list ;;
         edges <- Py.get data "edges" (JArr []) ;;
         edge_list <- Py.iter edges ;;
         net' <- add_edges net edge_list ;;
         Ok (Some net'))%res
  | _ => Ok None
  end.

Definition custom_style : string := "
        <style>
        @import url('https://fonts.googleapis.com/css2?family=Playfair+Display:wght@400;700&family=Source+Sans+3:wght@400;500;600;700&display=swap');

        div.vis-tooltip {
            font-family: 'Source Sans 3', sans-serif !important;
            background: linear-gradient(135deg, #ffffff 0%, #f8f9fa 100%) !important;
            color: #000000 !important;
            border: 2px solid #e0e0e0 !important;
            border-radius: 16px !important;
            padding: 20px !important;
            box-shadow: 0 10px 40px rgba(0,0,0,0.15) !important;
            max-width: 380px !important;
            font-size: 14px !important;
            line-height: 1.7 !important;
            white-space: pre-wrap !important;
            word-wrap: break-word !important;
            z-index: 999999 !important;
            pointer-events: none !important;
        }

        canvas {
            outline: none !important;
        }
        </style>
        ".

Definition html_error_text : string := "Error generating HTML: ".

(** [save_graph net] stands for [net.save_graph(path)] followed by reading
    the file back: the document pyvis writes for the network, or the
    exception of the file system. *)
Definition visualize_network (py : interp)
  (save_graph : Pyvis.network -> res string) (data : json)
  : list event * res (option string) :=
  match build_network py data with
  | Raise e => ([], Raise e)
  | Ok None => ([], Ok None)
  | Ok (Some net) =>
      match save_graph net with
      | Ok html_content =>
          ([], Ok (Some (PyStr.replace html_content "</head>"
                           (custom_style ++ "</head>"))))
      | Raise e => ([StError html_error_text (Some e)], Ok None)
      end
  end.

(** *** 9. Main execution *)

Definition no_edges_text : string :=
  "❌ The AI could not generate connections (edges). Please try again.".
Definition success_text : string :=
  "✅ Analysis complete! Hover over the nodes to explore 📚".
Definition failed_text : string := "Failed to generate visualization.".
Definition no_response_text : string :=
  "No response from AI. Please wait a moment and try again.".

(** Lines 375 to 386.  [Raise] is an exception that nothing in the script
    catches. *)
Definition display_results (py : interp)
  (save_graph : Pyvis.network -> res string) (data : json)
  : list event * res unit :=
  if Py.truthy data then
    match Py.get data "edges" JNull with
    | Raise e => ([], Raise e)
    | Ok edges =>
        if negb (Py.truthy edges) then ([StError no_edges_text None], Ok tt)
        else
          match visualize_network py save_graph data with
          | (evs, Raise e) => (evs, Raise e)
          | (evs, Ok final_html) =>
              match final_html with
              | Some (String c h) =>
                  ((evs ++ [ComponentsHtml (String c h) 770;
                            StSuccess success_text])%list, Ok tt)
              | _ => ((evs ++ [StError failed_text None])%list, Ok tt)
              end
          end
    end
  else ([StError no_response_text None], Ok tt).

(** Lines 351 to 386, for a click with three titles filled in. *)
Definition main (py : interp) (server : nat -> http_reply)
  (save_graph : Pyvis.network -> res string) : list event * res unit :=
  let '(evs, data) := get_recommendations py server in
  let '(evs', r) := display_results py save_graph data in
  ((evs ++ evs')%list, r).

End App.

(* ====================================================================== *)
(** ** Inputs of the testable properties *)
(* ====================================================================== *)

(** The three texts of the extractor's test vectors. *)
Definition fenced_text : string :=
  PyStr.json_text ("```json" ++ App.nl ++ "{'nodes':[]}" ++ App.nl ++ "```").
Definition chatty_text : string :=
  PyStr.json_text "Here is the graph: {'nodes':[],'edges':[]} Hope this helps!".
Definition plain_text : string := "not json at all".

(** The graph of the normaliser's test vector, and its only node as the
    network holds it. *)
Definition node_a : json := JObj [("id", JStr "A")].

Definition rendered_node_a : Pyvis.node_options := {|
  Pyvis.node_id := JStr "A";
  Pyvis.node_label := JStr "A";
  Pyvis.node_title :=
    App.tooltip_format "🔵 Recommended Book" "A" "Unknown Author"
      "No recommendation reason provided." "No summary available.";
  Pyvis.node_color := "#4ECDC4";
  Pyvis.node_size := 35
|}.

(** The edges of the network the renderer built, when it built one. *)
Definition edges_of (r : res (option Pyvis.network))
  : option (list Pyvis.edge_options) :=
  match r with
  | Ok (Some net) => Some (Pyvis.edges net)
  | _ => None
  end.

Definition edge_between (source target : string) : json :=
  JObj [("source", JStr source); ("target", JStr target)].

(** Two nodes and two edge entries that join them, one in each direction. *)
Definition two_way_graph : json :=
  JObj [("nodes", JArr [node_a; JObj [("id", JStr "B")]]);
        ("edges", JArr [edge_between "A" "B"; edge_between "B" "A"])].

(** The normaliser's test vector with an edge entry that has no target. *)
Definition half_edge_graph : json :=
  JObj [("nodes", JArr [node_a]); ("edges", JArr [JObj [("source", JStr "A")]])].

(** One node, and an edge from it to a node that is not in the graph. *)
Definition dangling_graph : json :=
  JObj [("nodes", JArr [node_a]); ("edges", JArr [edge_between "A" "B"])].

(** The answer of the service whose text is the bare list with node A. *)
Definition bare_list_reply : http_reply :=
  Reply 200
    (PyStr.json_text
       "{'candidates':[{'content':{'parts':[{'text':'[{\'id\':\'A\'}]'}]}}]}").

(** Text that opens [n] arrays. *)
Fixpoint nested (n : nat) : string :=
  match n with
  | O => ""
  | S k => String "[" (nested k)
  end.

Fixpoint ones (n : nat) : string :=
  match n with
  | O => ""
  | S k => String "1" (ones k)
  end.

(* ====================================================================== *)
(** ** Observations on replies, texts and networks *)
(* ====================================================================== *)

(** The exception with which an attempt fails: the one [requests.post]
    raises, or the one raised while a response other than a 429 is read. *)
Definition failure_of (py : interp) (reply : http_reply) : option exc :=
  match reply with
  | NoReply e => Some e
  | Reply status_code body =>
      if (status_code =? 429)%Z then None
      else match App.read_response py status_code body with
           | Raise e => Some e
           | Ok _ => None
           end
  end.

(** [c in s] for a character. *)
Fixpoint has_char (c : ascii) (s : string) : bool :=
  match s with
  | EmptyString => false
  | String a s' => Ascii.eqb a c || has_char c s'
  end.

(** The fence marker that [get_recommendations] removes. *)
Definition fence : string := "```".

Definition id_ok (v : json) : bool :=
  match v with
  | JStr _ | JInt _ | JBool _ => true
  | _ => false
  end.

Definition is_dict (v : json) : bool :=
  match v with
  | JObj _ => true
  | _ => false
  end.

(** No element equals ([==]) one that comes before it, or one of [seen]. *)
Fixpoint distinct_from (seen l : list json) : bool :=
  match l with
  | [] => true
  | x :: l' => negb (Py.mem x seen) && distinct_from (seen ++ [x]) l'
  end.

Definition ends_known (ids : list json) (e : Pyvis.edge_options) : bool :=
  Py.mem (Pyvis.edge_from e) ids && Py.mem (Pyvis.edge_to e) ids.

(** What holds of a network at every point of the rendering: the list of
    ids is the ids of the nodes in order, every id is a [str] or an [int],
    no id occurs twice, and both ends of every edge are ids of nodes. *)
Definition consistent (net : Pyvis.network) : Prop :=
  map Pyvis.node_id (Pyvis.nodes net) = Pyvis.node_ids net
  /\ forallb id_ok (Pyvis.node_ids net) = true
  /\ distinct_from [] (Pyvis.node_ids net) = true
  /\ forallb (ends_known (Pyvis.node_ids net)) (Pyvis.edges net) = true.

(** The entries the loops of [visualize_network] visit under [key]. *)
Definition entries (data : json) (key : string) : list json :=
  let data :=
    match data with
    | JArr l => JObj [("nodes", data); ("edges", JArr [])]
    | _ => data
    end in
  match data with
  | JObj d =>
      match Py.iter (Py.lookup d key (JArr [])) with
      | Ok l => l
      | Raise _ => []
      end
  | _ => []
  end.

(** The exceptions of the renderer. *)
Definition renderer_error (e : exc) : Prop :=
  e = AttributeError \/ e = TypeError \/ e = AssertionError.

(** A graph that renders: two nodes and the edge between them. *)
Definition small_graph : list (string * json) :=
  [("nodes", JArr [node_a; JObj [("id", JStr "B")]]);
   ("edges", JArr [edge_between "A" "B"])].

Definition small_network : Pyvis.network :=
  match App.build_network cpython (JObj small_graph) with
  | Ok (Some net) => net
  | _ => Pyvis.empty
  end.

(* ====================================================================== *)
(** ** The model against CPython *)
(* ====================================================================== *)

(** Values CPython 3.11 gives for the same inputs. *)

Example replace_fence :
  PyStr.replace "```json
{}
```" "```json" "" = "
{}
```".
Proof. reflexivity. Qed.

Example strip_unicode :
  PyStr.strip (String (ascii_of_N 194) (String (ascii_of_N 160) " a b
")) = "a b".
Proof. reflexivity. Qed.

Example chars_split : PyStr.chars "aé!" = ["a"; "é"; "!"].
Proof. reflexivity. Qed.

Example float_repr_samples :
  map (fun '(d, e) => Float64.repr (Float64.of_decimal false d e))
      [(1, -1); (15, -1); (1, 22); (1, 16); (1, 15); (1, -5); (1, -4);
       (123456789012345678, 0); (5, -324); (17976931348623157, 292);
       (1, 400); (1, -400); (3, 0); (2, -1); (100, 0); (25, -325);
       (22250738585072014, -324); (9007199254740993, 0); (12345, -2);
       (24703282292062328, -340); (24703282292062327, -340); (435, -2);
       (1, 23); (9999999999999999, 7); (10000000000000002, -16);
       (123, -6); (12345678901234567, -1); (12345678901234567, 0)]%Z
  = ["0.1"; "1.5"; "1e+22"; "1e+16"; "1000000000000000.0"; "1e-05"; "0.0001";
     "1.2345678901234568e+17"; "5e-324"; "1.7976931348623157e+308";
     "inf"; "0.0"; "3.0"; "0.2"; "100.0"; "5e-324";
     "2.2250738585072014e-308"; "9007199254740992.0"; "123.45";
     "5e-324"; "0.0"; "4.35";
     "1e+23"; "1e+23"; "1.0000000000000002";
     "0.000123"; "1234567890123456.8"; "1.2345678901234568e+16"].
Proof. vm_compute. reflexivity. Qed.

Example str_samples :
  map (Py.str cpython)
      [JNull; JBool true; JInt (-42); JStr "a'b";
       JArr [JStr "a'b"; JInt 1; JFloat (Float64.of_decimal false 15 (-1))];
       JObj [("k", JArr []); ("é", JStr "x
y")]]
  = ["None"; "True"; "-42"; "a'b";
     "[" ++ String PyStr.dquote "a'b" ++ String PyStr.dquote ", 1, 1.5]";
     "{'k': [], 'é': 'x\ny'}"].
Proof. vm_compute. reflexivity. Qed.

Example eq_samples :
  (Py.eq (JInt 1) (JBool true), Py.eq (JInt 1) (JStr "1"),
   Py.eq (JFloat (Float64.of_decimal false 10 (-1))) (JInt 1),
   Py.eq (JObj [("a", JInt 1); ("b", JNull)]) (JObj [("b", JNull); ("a", JBool true)]))
  = (true, false, true, true).
Proof. vm_compute. reflexivity. Qed.

Example search_samples :
  map Re.search ["a [ {b} c"; "x ] [1] } {"; "{ [ } ]"; "} {"]
  = [Some "{b}"; Some "[1]"; Some "{ [ }"; None].
Proof. reflexivity. Qed.

Example loads_samples :
  map (fun t => Json.loads cpython (PyStr.json_text t))
    ["{'a': [1, 2.5, true, null, 'xé\n'], 'b': {}, 'a': -0}";
     " [ ] "; "[1,]"; "{'a':1,}"; "01"; "1.e5"; "-"; "1e5"; "-Infinity";
     "'😀'"; "nul"; "[1 2]"; "{'a' 1}"; "2 3"; ""]
  = [Ok (JObj [("a", JInt 0); ("b", JObj [])]);
     Ok (JArr []); Raise JSONDecodeError; Raise JSONDecodeError;
     Raise JSONDecodeError; Raise JSONDecodeError; Raise JSONDecodeError;
     Ok (JFloat (Float64.FFin false 6871947673600000 (-36)));
     Ok (JFloat (Float64.FInf true));
     Ok (JStr "😀"); Raise JSONDecodeError; Raise JSONDecodeError;
     Raise JSONDecodeError; Raise JSONDecodeError; Raise JSONDecodeError].
Proof. vm_compute. reflexivity. Qed.

(* ====================================================================== *)
(** ** The decoder consumes its input *)
(* ====================================================================== *)

Module JsonFacts.
Import Json.

Lemma skip_ws_length s : (String.length (skip_ws s) <= String.length s)%nat.
Proof.
  induction s as [|c s IH]; simpl; [lia|].
  destruct (is_ws c); simpl; lia.
Qed.

Lemma drop_length n s :
  (String.length (PyStr.drop n s) = String.length s - n)%nat.
Proof.
  revert s; induction n as [|n IH]; intros [|c s]; simpl; auto.
Qed.

Lemma starts_with_length p s :
  PyStr.starts_with p s = true -> (String.length p <= String.length s)%nat.
Proof.
  revert s; induction p as [|a p IH]; intros [|b s]; simpl; try lia; try discriminate.
  intros H. apply andb_true_iff in H as [_ H]. apply IH in H. lia.
Qed.

Lemma scanstring_from_consumes s :
  forall skip,
    match scanstring_from skip s with
    | Ok (_, rest) => (String.length rest < String.length s)%nat
    | Raise e => e = JSONDecodeError
    end.
Proof.
  induction s as [|c s IH]; intros skip; simpl; [reflexivity|].
  destruct skip as [|k].
  - destruct (Ascii.eqb c PyStr.dquote); [lia|].
    destruct (Ascii.eqb c "\").
    + destruct (escape s) as [[text n]|]; [|reflexivity].
      specialize (IH n). destruct (scanstring_from n s) as [[content rest]|e]; [lia|exact IH].
    + destruct (PyStr.byte c <? 32)%N; [reflexivity|].
      specialize (IH 0%nat). destruct (scanstring_from 0 s) as [[content rest]|e]; [lia|exact IH].
  - specialize (IH k). destruct (scanstring_from k s) as [[content rest]|e]; [lia|exact IH].
Qed.

Lemma span_digits_length s :
  (String.length (snd (span_digits s)) <= String.length s)%nat.
Proof.
  induction s as [|c s IH]; simpl; [lia|].
  destruct (is_digit c); simpl; [|lia].
  destruct (span_digits s) as [ds rest]; simpl in *; lia.
Qed.

Lemma match_number_consumes py s : consumes s (match_number py s).
Proof.
  unfold match_number.
  set (sg := match s with String "-" r => (true, r) | _ => (false, s) end).
  assert (Hsg : (String.length (snd sg) <= String.length s)%nat).
  { subst sg. destruct s as [|c r]; simpl; [lia|].
    destruct c as [[] [] [] [] [] [] [] []]; simpl; lia. }
  destruct sg as [neg s1]; simpl in Hsg.
  destruct s1 as [|c r]; [left; reflexivity|].
  destruct (is_digit c); simpl; [|left; reflexivity].
  set (ip := if Ascii.eqb c "0" then ("0", r) else let '(ds, rest) := span_digits r in (String c ds, rest)).
  assert (Hip : (String.length (snd ip) <= String.length r)%nat).
  { subst ip. destruct (Ascii.eqb c "0"); simpl; [lia|].
    pose proof (span_digits_length r). destruct (span_digits r); simpl in *; lia. }
  destruct ip as [int_ds s2]; simpl in Hip.
  set (fp := match s2 with
             | String "." r2 => match span_digits r2 with
                                | (String d ds, rest) => (String d ds, rest)
                                | _ => ("", s2)
                                end
             | _ => ("", s2)
             end).
  assert (Hfp : (String.length (snd fp) <= String.length s2)%nat).
  { subst fp. destruct s2 as [|d r2]; simpl; [lia|].
    destruct d as [[] [] [] [] [] [] [] []]; simpl; try lia.
    pose proof (span_digits_length r2). destruct (span_digits r2) as [[|x ds] rest]; simpl in *; lia. }
  destruct fp as [frac_ds s3]; simpl in Hfp.
  match goal with |- context [let '(expo, s4) := ?E in _] => set (ep := E) end.
  assert (Hep : (String.length (snd ep) <= String.length s3)%nat).
  { subst ep. destruct s3 as [|e r3]; simpl; [lia|].
    destruct (Ascii.eqb e "e" || Ascii.eqb e "E"); simpl; [|lia].
    set (sp := match r3 with
               | String "-" r' => (true, r')
               | String "+" r' => (false, r')
               | _ => (false, r3)
               end).
    assert (Hsp : (String.length (snd sp) <= String.length r3)%nat).
    { subst sp. destruct r3 as [|x r']; simpl; [lia|].
      destruct x as [[] [] [] [] [] [] [] []]; simpl; lia. }
    destruct sp as [eneg r4]; simpl in Hsp.
    pose proof (span_digits_length r4). destruct (span_digits r4) as [[|x ds] rest]; simpl in *; lia. }
  destruct ep as [expo s4]; simpl in Hep.
  cbn [String.length] in Hsg.
  destruct frac_ds; destruct expo; simpl; try lia.
  destruct (over_digit_limit py int_ds); simpl; [right; right; reflexivity|lia].
Qed.

Ltac bits c := destruct c as [[] [] [] [] [] [] [] []].

Lemma consumes_weaken s t p :
  (String.length s <= String.length t)%nat -> consumes s p -> consumes t p.
Proof.
  destruct p as [[v r]|e]; cbn [consumes]; [lia|auto].
Qed.

Section Loops.

Variable scan : string -> parsed.
Hypothesis scan_consumes : forall s, consumes s (scan s).

Lemma members_consumes :
  forall fuel s acc,
    (String.length s < fuel)%nat -> consumes s (members scan fuel s acc).
Proof.
  induction fuel as [|fuel IH]; intros s acc Hfuel; [lia|].
  simpl. destruct s as [|c s0]; [left; reflexivity|].
  destruct (Ascii.eqb c PyStr.dquote); simpl; [|left; reflexivity].
  unfold scanstring. pose proof (scanstring_from_consumes s0 0) as Hk.
  destruct (scanstring_from 0 s0) as [[key s1]|e]; [|left; exact Hk].
  pose proof (skip_ws_length s1) as H1.
  destruct (skip_ws s1) as [|colon s2]; [left; reflexivity|].
  cbn [String.length] in *.
  assert (Hgo : consumes (String c s0)
            match scan (skip_ws s2) with
            | Ok (val, s3) =>
                match skip_ws s3 with
                | String "}" s4 => Ok (JObj (Py.dict_set key val acc), s4)
                | String "," s4 =>
                    members scan fuel (skip_ws s4) (Py.dict_set key val acc)
                | _ => Raise JSONDecodeError
                end
            | Raise e => Raise e
            end).
  { pose proof (scan_consumes (skip_ws s2)) as Hv.
    pose proof (skip_ws_length s2) as H2.
    destruct (scan (skip_ws s2)) as [[val s3]|e]; [|exact Hv].
    cbn [consumes] in Hv.
    pose proof (skip_ws_length s3) as H3.
    destruct (skip_ws s3) as [|d s4]; [left; reflexivity|].
    cbn [String.length] in *.
    pose proof (skip_ws_length s4) as H4.
    bits d; try (left; reflexivity); cbn [consumes String.length];
      try lia.
    apply consumes_weaken with (s := skip_ws s4);
      [cbn [String.length]; lia|apply IH; lia]. }
  bits colon; try (left; reflexivity); exact Hgo.
Qed.

Lemma elements_consumes :
  forall fuel s acc,
    (String.length s < fuel)%nat -> consumes s (elements scan fuel s acc).
Proof.
  induction fuel as [|fuel IH]; intros s acc Hfuel; [lia|].
  simpl. pose proof (scan_consumes s) as Hv.
  destruct (scan s) as [[val s1]|e]; [|exact Hv].
  cbn [consumes] in Hv.
  pose proof (skip_ws_length s1) as H1.
  destruct (skip_ws s1) as [|d s2]; [left; reflexivity|].
  cbn [String.length] in *.
  pose proof (skip_ws_length s2) as H2.
  bits d; try (left; reflexivity); cbn [consumes String.length]; try lia.
  apply consumes_weaken with (s := skip_ws s2);
    [cbn [String.length]; lia|apply IH; lia].
Qed.

End Loops.

Lemma literal_consumes lit s v :
  PyStr.starts_with lit s = true -> lit <> "" ->
  consumes s (Ok (v, PyStr.drop (String.length lit) s)).
Proof.
  intros H Hne. cbn [consumes]. rewrite drop_length.
  apply starts_with_length in H. destruct lit; [congruence|]. simpl in *. lia.
Qed.

Lemma scan_once_consumes py :
  forall depth s, consumes s (scan_once py depth s).
Proof.
  induction depth as [|d IH]; intros s.
  - destruct s as [|c s']; cbn [scan_once]; [left; reflexivity|].
    destruct (Ascii.eqb c PyStr.dquote).
    { unfold scanstring. pose proof (scanstring_from_consumes s' 0) as Hk.
      destruct (scanstring_from 0 s') as [[text rest]|e];
        cbn [consumes String.length]; [lia|left; exact Hk]. }
    destruct (Ascii.eqb c "{"); [right; left; reflexivity|].
    destruct (Ascii.eqb c "["); [right; left; reflexivity|].
    repeat match goal with
    | |- consumes _ (if PyStr.starts_with ?lit ?t then _ else _) =>
        let H := fresh in
        destruct (PyStr.starts_with lit t) eqn:H;
        [apply (literal_consumes lit t _ H); discriminate|]
    end.
    apply match_number_consumes.
  - destruct s as [|c s']; cbn [scan_once]; [left; reflexivity|].
    destruct (Ascii.eqb c PyStr.dquote).
    { unfold scanstring. pose proof (scanstring_from_consumes s' 0) as Hk.
      destruct (scanstring_from 0 s') as [[text rest]|e];
        cbn [consumes String.length]; [lia|left; exact Hk]. }
    destruct (Ascii.eqb c "{").
    { pose proof (skip_ws_length s') as Hw.
      assert (Hm : consumes (String c s')
                (members (scan_once py d) (S (String.length (skip_ws s')))
                   (skip_ws s') [])).
      { eapply consumes_weaken; [|apply members_consumes; [exact IH|lia]].
        cbn [String.length]; lia. }
      destruct (skip_ws s') as [|x rest]; [exact Hm|].
      cbn [String.length] in *.
      bits x; try exact Hm. cbn [consumes String.length]. lia. }
    destruct (Ascii.eqb c "[").
    { pose proof (skip_ws_length s') as Hw.
      assert (Hm : consumes (String c s')
                (elements (scan_once py d) (S (String.length (skip_ws s')))
                   (skip_ws s') [])).
      { eapply consumes_weaken; [|apply elements_consumes; [exact IH|lia]].
        cbn [String.length]; lia. }
      destruct (skip_ws s') as [|x rest]; [exact Hm|].
      cbn [String.length] in *.
      bits x; try exact Hm. cbn [consumes String.length]. lia. }
    repeat match goal with
    | |- consumes _ (if PyStr.starts_with ?lit ?t then _ else _) =>
        let H := fresh in
        destruct (PyStr.starts_with lit t) eqn:H;
        [apply (literal_consumes lit t _ H); discriminate|]
    end.
    apply match_number_consumes.
Qed.

(** [json.loads] raises nothing but [JSONDecodeError], [RecursionError] and
    [ValueError]; in particular no loop of the model runs out of its
    bound. *)
Lemma loads_fuel_free py s :
  match loads py s with
  | Ok _ => True
  | Raise e => decoder_error e
  end.
Proof.
  unfold loads. destruct (PyStr.starts_with bom s); [left; reflexivity|].
  pose proof (scan_once_consumes py (recursion_limit py) (skip_ws s)) as H.
  destruct (scan_once py (recursion_limit py) (skip_ws s)) as [[v rest]|e];
    [|exact H].
  destruct (skip_ws rest); [exact I|left; reflexivity].
Qed.

End JsonFacts.

(* ====================================================================== *)
(** ** Facts about the values *)
(* ====================================================================== *)

Module PyFacts.

Lemma eq_str_true v s : Py.eq v (JStr s) = true -> v = JStr s.
Proof.
  destruct v; simpl; try discriminate.
  intros H. apply String.eqb_eq in H. now subst.
Qed.

Lemma eq_str_false v s : v <> JStr s -> Py.eq v (JStr s) = false.
Proof.
  intros H. destruct (Py.eq v (JStr s)) eqn:E; [|reflexivity].
  apply eq_str_true in E. contradiction.
Qed.

Lemma dict_get_set_other k k' v d :
  k <> k' -> Py.dict_get k (Py.dict_set k' v d) = Py.dict_get k d.
Proof.
  intros Hk. induction d as [|[k0 v0] d IH]; simpl.
  - destruct (String.eqb k k') eqn:E; [apply String.eqb_eq in E; contradiction|reflexivity].
  - destruct (String.eqb k' k0) eqn:E0; simpl.
    + apply String.eqb_eq in E0. subst k0.
      destruct (String.eqb k k') eqn:E; [apply String.eqb_eq in E; contradiction|reflexivity].
    + destruct (String.eqb k k0); [reflexivity|exact IH].
Qed.

Lemma dict_get_set_same k v d : Py.dict_get k (Py.dict_set k v d) = Some v.
Proof.
  induction d as [|[k0 v0] d IH]; simpl.
  - now rewrite String.eqb_refl.
  - destruct (String.eqb k k0) eqn:E; simpl.
    + now rewrite String.eqb_refl.
    + now rewrite E.
Qed.

Lemma lookup_set_other k k' v d default :
  k <> k' -> Py.lookup (Py.dict_set k' v d) k default = Py.lookup d k default.
Proof.
  intros H. unfold Py.lookup. now rewrite dict_get_set_other.
Qed.

Lemma lookup_set_same k v d default :
  Py.lookup (Py.dict_set k v d) k default = v.
Proof.
  unfold Py.lookup. now rewrite dict_get_set_same.
Qed.

Lemma truthy_str s : Py.truthy (JStr s) = true <-> s <> "".
Proof.
  destruct s; simpl; split; intros; congruence.
Qed.

End PyFacts.

Module AppFacts.
Import App.

(** The tooltip of a node entry, in closed form. *)
Lemma create_tooltip_text_dict py d :
  create_tooltip_text py (JObj d) =
    Ok (tooltip_format
          (badge_of (Py.lookup d "group" (JStr "Recommended")))
          (Py.str py (Py.or_ (Py.lookup d "title" JNull)
                        (Py.or_ (Py.lookup d "id" JNull) (JStr "Untitled"))))
          (Py.str py (Py.lookup d "author" (JStr "Unknown Author")))
          (Py.str py (Py.lookup d "reason"
                        (JStr "No recommendation reason provided.")))
          (Py.str py (Py.lookup d "summary" (JStr "No summary available.")))).
Proof. reflexivity. Qed.

(** [add_node] and the loop over the nodes leave the edges alone. *)
Lemma add_node_edges net n_id label title color size net' :
  Pyvis.add_node net n_id label title color size = Ok net' ->
  Pyvis.edges net' = Pyvis.edges net.
Proof.
  unfold Pyvis.add_node.
  destruct n_id; try discriminate;
    destruct (Py.mem _ _); intros H; injection H as <-; reflexivity.
Qed.

Lemma add_nodes_edges py l :
  forall net net', add_nodes py net l = Ok net' ->
                   Pyvis.edges net' = Pyvis.edges net.
Proof.
  induction l as [|node l IH]; intros net net'; simpl.
  - intros H; injection H as <-; reflexivity.
  - destruct (node_call py node) as [c|e]; simpl; [|discriminate].
    destruct (Pyvis.add_node net (arg_id c) (arg_label c) (arg_title c)
                (arg_color c) (arg_size c)) as [net1|e] eqn:E; simpl; [|discriminate].
    intros H. apply IH in H. rewrite H. eapply add_node_edges; eassumption.
Qed.

(** A response with status 429 ends the loop at the attempt it answers:
    no sleep and no further request follow it. *)
Lemma attempts_rate_limited py server todo attempt body :
  server attempt = Reply 429 body ->
  attempts py server (S todo) attempt
  = ([Post; StError rate_limit_text None], JNull).
Proof.
  intros H. cbn [attempts]. rewrite H. reflexivity.
Qed.

(** The result handling fails on every true value that is not a dict. *)
Lemma display_results_not_dict py save_graph data :
  Py.truthy data = true -> (forall d, data <> JObj d) ->
  display_results py save_graph data = ([], Raise AttributeError).
Proof.
  intros Ht Hd. unfold display_results. rewrite Ht.
  destruct data; try reflexivity. now contradiction (Hd d).
Qed.

End AppFacts.

Module ExtractFacts.
Import App.

Lemma scan_once_array py d s :
  Json.scan_once py (S d) (String "[" s)
  = match Json.skip_ws s with
    | String "]" rest => Ok (JArr [], rest)
    | s1 => Json.elements (Json.scan_once py d) (S (String.length s1)) s1 []
    end.
Proof. reflexivity. Qed.

Lemma scan_once_nested py :
  forall depth,
    Json.scan_once py depth (String "[" (nested depth)) = Raise RecursionError.
Proof.
  induction depth as [|d IH]; [reflexivity|].
  rewrite scan_once_array. cbn [nested].
  change (Json.skip_ws (String "[" (nested d))) with (String "[" (nested d)).
  cbv iota. cbn [Json.elements]. rewrite IH. reflexivity.
Qed.

(** An exception leaves [extract_json] only from the first [json.loads],
    and it is a [RecursionError] or a [ValueError]. *)
Lemma extract_json_raises py text e :
  extract_json py text = Raise e ->
  Json.loads py text = Raise e /\ (e = RecursionError \/ e = ValueError).
Proof.
  unfold extract_json. pose proof (JsonFacts.loads_fuel_free py text) as H.
  destruct (Json.loads py text) as [v|e0]; [discriminate|].
  destruct H as [->|[->| ->]].
  - destruct (Re.search text) as [m|]; [|discriminate].
    destruct (Json.loads py m); discriminate.
  - intros H; injection H as <-. auto.
  - intros H; injection H as <-. auto.
Qed.

End ExtractFacts.

Module ClientFacts.
Import App.

(** One pass of the loop either ends the function without sleeping, or (on
    the first two attempts only) sleeps the delay of the attempt and goes
    on. *)
Lemma attempt_body_cases py attempt reply :
  (exists evs data,
      attempt_body py attempt reply = (evs, Return data)
      /\ posts evs = 0%nat /\ sleeps evs = [])
  \/ ((attempt < 2)%nat
      /\ attempt_body py attempt reply
         = ([Sleep (nth attempt retry_delays 0%Z)], Continue)).
Proof.
  assert (Hexc : forall e,
    (exists evs data,
        on_exception attempt e = (evs, Return data)
        /\ posts evs = 0%nat /\ sleeps evs = [])
    \/ ((attempt < 2)%nat
        /\ on_exception attempt e
           = ([Sleep (nth attempt retry_delays 0%Z)], Continue))).
  { intros e. unfold on_exception, max_retries.
    destruct (attempt <? 3 - 1)%nat eqn:E.
    - right. apply Nat.ltb_lt in E. split; [lia|reflexivity].
    - left. eexists _, _. repeat split. }
  destruct reply as [e|status_code body]; cbn [attempt_body]; [apply Hexc|].
  destruct (status_code =? 429)%Z.
  { left. eexists _, _. repeat split. }
  unfold max_retries.
  destruct ((status_code =? 503)%Z && (attempt <? 3 - 1)%nat) eqn:E.
  { right. apply andb_true_iff in E as [_ E]. apply Nat.ltb_lt in E.
    split; [lia|reflexivity]. }
  destruct (read_response py status_code body) as [data|e]; [|apply Hexc].
  left. eexists _, _. repeat split.
Qed.

(** A reply that fails makes the first two attempts sleep and go on, and
    the third one report the failure. *)
Lemma attempt_body_failure py attempt reply e :
  failure_of py reply = Some e ->
  attempt_body py attempt reply
  = if (attempt <? 2)%nat
    then ([Sleep (nth attempt retry_delays 0%Z)], Continue)
    else ([StError communication_text (Some e)], Return JNull).
Proof.
  destruct reply as [e0|status_code body]; cbn [failure_of attempt_body].
  - intros H; injection H as ->. reflexivity.
  - destruct (status_code =? 429)%Z; [discriminate|].
    destruct (read_response py status_code body) as [data|e0] eqn:E;
      [discriminate|].
    intros H; injection H as ->. unfold max_retries. cbn [Nat.sub].
    destruct ((status_code =? 503)%Z && (attempt <? 2)%nat) eqn:E503.
    + apply andb_true_iff in E503 as [_ ->]. reflexivity.
    + reflexivity.
Qed.

(** A reply that is read without an exception ends the function with the
    value read. *)
Lemma attempt_body_success py attempt status_code body data :
  read_response py status_code body = Ok data ->
  attempt_body py attempt (Reply status_code body) = ([], Return data).
Proof.
  intros H. cbn [attempt_body].
  assert (Hs : ((400 <=? status_code) && (status_code <? 600))%Z = false).
  { unfold read_response, raise_for_status in H.
    destruct ((400 <=? status_code) && (status_code <? 600))%Z;
      [discriminate|reflexivity]. }
  assert (H429 : (status_code =? 429)%Z = false).
  { destruct (status_code =? 429)%Z eqn:E; [|reflexivity].
    apply Z.eqb_eq in E. subst. discriminate. }
  assert (H503 : (status_code =? 503)%Z = false).
  { destruct (status_code =? 503)%Z eqn:E; [|reflexivity].
    apply Z.eqb_eq in E. subst. discriminate. }
  now rewrite H429, H503, H.
Qed.

End ClientFacts.

Module ReadFacts.
Import App.

Lemma raise_for_status_ok status_code :
  ((400 <=? status_code) && (status_code <? 600))%Z = false ->
  raise_for_status status_code = Ok tt.
Proof. unfold raise_for_status. now intros ->. Qed.

End ReadFacts.

Module StrFacts.

Lemma contains_cons p c s :
  PyStr.contains p (String c s)
  = PyStr.starts_with p (String c s) || PyStr.contains p s.
Proof. reflexivity. Qed.

(** Replacing a text that does not occur changes nothing. *)
Lemma replace_absent s old new :
  old <> "" -> PyStr.contains old s = false -> PyStr.replace s old new = s.
Proof.
  intros Hold. unfold PyStr.replace.
  destruct old as [|a old']; [congruence|]. clear Hold.
  induction s as [|c s IH]; [reflexivity|].
  rewrite contains_cons. intros H. apply orb_false_iff in H as [Hs Hc].
  cbn [PyStr.replace_from]. rewrite Hs. now rewrite IH.
Qed.

Lemma contains_weaken p q s :
  (forall t, PyStr.starts_with p t = true -> PyStr.starts_with q t = true) ->
  PyStr.contains q s = false -> PyStr.contains p s = false.
Proof.
  intros Hpq. induction s as [|c s IH].
  - cbn. intros H. apply orb_false_iff in H as [H _].
    destruct (PyStr.starts_with p "") eqn:E; [|reflexivity].
    apply Hpq in E. rewrite E in H. discriminate.
  - rewrite !contains_cons. intros H. apply orb_false_iff in H as [Hs Hc].
    rewrite (IH Hc), orb_false_r.
    destruct (PyStr.starts_with p (String c s)) eqn:E; [|reflexivity].
    apply Hpq in E. rewrite E in Hs. discriminate.
Qed.

Lemma starts_with_app p q t :
  PyStr.starts_with (p ++ q) t = true -> PyStr.starts_with p t = true.
Proof.
  revert t. induction p as [|a p IH]; intros t; [reflexivity|].
  destruct t as [|b t]; cbn; [discriminate|].
  intros H. apply andb_true_iff in H as [-> H]. now apply IH.
Qed.

Lemma unfence_head1 s :
  PyStr.starts_with "`" (PyStr.replace_from fence "" 0 s) = true ->
  PyStr.starts_with "`" s = true.
Proof.
  destruct s as [|c s]; [discriminate|]. cbn [PyStr.replace_from].
  destruct (PyStr.starts_with fence (String c s)) eqn:E.
  - intros _. now apply (starts_with_app "`" "``").
  - cbn. now rewrite !andb_true_r.
Qed.

Lemma unfence_head2 s :
  PyStr.starts_with "``" (PyStr.replace_from fence "" 0 s) = true ->
  PyStr.starts_with "``" s = true.
Proof.
  destruct s as [|c s]; [discriminate|]. cbn [PyStr.replace_from].
  destruct (PyStr.starts_with fence (String c s)) eqn:E.
  - intros _. now apply (starts_with_app "``" "`").
  - change (PyStr.starts_with "``" (String c ?x))
      with (Ascii.eqb "`" c && PyStr.starts_with "`" x).
    cbn [PyStr.starts_with]. intros H. apply andb_true_iff in H as [-> H].
    apply unfence_head1 in H. exact H.
Qed.

Lemma unfence_clean s :
  forall skip, PyStr.contains fence (PyStr.replace_from fence "" skip s) = false.
Proof.
  induction s as [|c s IH]; intros skip; [reflexivity|].
  cbn [PyStr.replace_from]. destruct skip as [|k]; [|apply IH].
  destruct (PyStr.starts_with fence (String c s)) eqn:E.
  - cbn [append]. apply IH.
  - rewrite contains_cons, IH, orb_false_r.
    destruct (PyStr.starts_with fence
                (String c (PyStr.replace_from fence "" 0 s))) eqn:F;
      [|reflexivity].
    exfalso. unfold fence in F, E. cbn [PyStr.starts_with] in F, E.
    apply andb_true_iff in F as [Hc F]. rewrite Hc in E. cbn [andb] in E.
    assert (G : PyStr.starts_with "``" (PyStr.replace_from fence "" 0 s) = true)
      by exact F.
    apply unfence_head2 in G. cbn [PyStr.starts_with] in G.
    rewrite G in E. discriminate.
Qed.

(** [lstrip] keeps a suffix and [rstrip] a prefix of the text, so neither
    brings in an occurrence of a pattern. *)
Lemma contains_lstrip_from p s :
  forall skip, PyStr.contains p (PyStr.lstrip_from skip s) = true ->
               PyStr.contains p s = true.
Proof.
  induction s as [|c s IH]; intros skip; [now cbn|].
  assert (Hrec : forall k, PyStr.contains p (PyStr.lstrip_from k s) = true ->
                           PyStr.contains p (String c s) = true).
  { intros k H. rewrite contains_cons, (IH k H). apply orb_true_r. }
  cbn [PyStr.lstrip_from]. destruct skip as [|k]; [|apply Hrec].
  destruct (PyStr.space_width (String c s)); [trivial|apply Hrec].
Qed.

Lemma starts_with_rstrip s :
  forall p, PyStr.starts_with p (PyStr.rstrip s) = true ->
            PyStr.starts_with p s = true.
Proof.
  induction s as [|c s IH]; intros p; [trivial|].
  cbn [PyStr.rstrip]. destruct (PyStr.all_space (String c s)).
  - destruct p; [reflexivity|discriminate].
  - destruct p as [|a p]; [reflexivity|]. cbn [PyStr.starts_with].
    intros H. apply andb_true_iff in H as [-> H]. now apply IH.
Qed.

Lemma contains_rstrip p s :
  PyStr.contains p (PyStr.rstrip s) = true -> PyStr.contains p s = true.
Proof.
  induction s as [|c s IH]; [trivial|].
  cbn [PyStr.rstrip]. destruct (PyStr.all_space (String c s)) eqn:E.
  - cbn. rewrite orb_false_r. destruct p; [reflexivity|discriminate].
  - rewrite !contains_cons. intros H. apply orb_true_iff in H as [H|H].
    + destruct p as [|a p]; [reflexivity|]. cbn [PyStr.starts_with] in *.
      apply andb_true_iff in H as [-> H].
      now rewrite (starts_with_rstrip s p H).
    + rewrite (IH H). apply orb_true_r.
Qed.

Lemma contains_strip p s :
  PyStr.contains p (PyStr.strip s) = true -> PyStr.contains p s = true.
Proof.
  unfold PyStr.strip, PyStr.lstrip. intros H.
  apply contains_rstrip in H. now apply contains_lstrip_from in H.
Qed.

End StrFacts.

Module ReFacts.

Lemma upto_last_none close s :
  has_char close s = false -> Re.upto_last close s = None.
Proof.
  induction s as [|c s IH]; [reflexivity|]. cbn.
  intros H. apply orb_false_iff in H as [Hc Hs].
  now rewrite (IH Hs), Hc.
Qed.

Lemma upto_last_app close mid post :
  has_char close post = false ->
  Re.upto_last close (mid ++ String close post)
  = Some (mid ++ String close "").
Proof.
  intros H. induction mid as [|c mid IH]; cbn.
  - now rewrite (upto_last_none _ _ H), Ascii.eqb_refl.
  - now rewrite IH.
Qed.

Lemma upto_last_shape close s m :
  Re.upto_last close s = Some m ->
  exists mid post,
    s = (mid ++ String close "") ++ post
    /\ m = mid ++ String close "" /\ has_char close post = false.
Proof.
  revert m. induction s as [|c s IH]; intros m; [discriminate|]. cbn.
  destruct (Re.upto_last close s) as [m'|] eqn:E.
  - intros H; injection H as <-.
    destruct (IH m' eq_refl) as (mid & post & -> & -> & Hp).
    exists (String c mid), post. repeat split; assumption.
  - destruct (Ascii.eqb c close) eqn:Ec; [|discriminate].
    intros H; injection H as <-. apply Ascii.eqb_eq in Ec. subst c.
    exists "", s. repeat split.
    clear IH. induction s as [|d s IHs]; [reflexivity|].
    cbn in E. destruct (Re.upto_last close s); [discriminate|].
    destruct (Ascii.eqb d close) eqn:Ed; [discriminate|].
    cbn. now rewrite Ed, IHs.
Qed.

Lemma append_assoc (a b c : string) : (a ++ b) ++ c = a ++ (b ++ c).
Proof. induction a as [|x a IH]; cbn; now rewrite ?IH. Qed.

End ReFacts.

Module NetFacts.
Import App.

Lemma mem_app x a b : Py.mem x (a ++ b)%list = Py.mem x a || Py.mem x b.
Proof. unfold Py.mem. apply existsb_app. Qed.

Lemma distinct_from_snoc l :
  forall seen x,
    distinct_from seen (l ++ [x])%list
    = distinct_from seen l && negb (Py.mem x (seen ++ l)%list).
Proof.
  induction l as [|y l IH]; intros seen x; cbn [distinct_from app].
  - now rewrite app_nil_r, andb_true_r.
  - rewrite IH, <- app_assoc. cbn [app]. now rewrite andb_assoc.
Qed.

Lemma ends_known_grow ids x e :
  ends_known ids e = true -> ends_known (ids ++ [x])%list e = true.
Proof.
  unfold ends_known. rewrite !mem_app. intros H.
  apply andb_true_iff in H as [-> ->]. reflexivity.
Qed.

Lemma add_node_consistent net n_id label title color size net' :
  Pyvis.add_node net n_id label title color size = Ok net' ->
  consistent net -> consistent net'.
Proof.
  unfold Pyvis.add_node. intros H (Hmap & Hok & Hd & He).
  assert (Hgo : id_ok n_id = true ->
    (if Py.mem n_id (Pyvis.node_ids net) then Ok net
     else Ok {| Pyvis.nodes :=
                  (Pyvis.nodes net
                   ++ [ {| Pyvis.node_id := n_id;
                           Pyvis.node_label :=
                             if Py.truthy label then label else n_id;
                           Pyvis.node_title := title;
                           Pyvis.node_color := color;
                           Pyvis.node_size := size |} ])%list;
                Pyvis.node_ids := (Pyvis.node_ids net ++ [n_id])%list;
                Pyvis.edges := Pyvis.edges net |}) = Ok net' ->
    consistent net').
  { intros Hid. destruct (Py.mem n_id (Pyvis.node_ids net)) eqn:Em;
      intros E; injection E as <-.
    - repeat split; assumption.
    - unfold consistent. cbn [Pyvis.nodes Pyvis.node_ids Pyvis.edges].
      repeat split.
      + now rewrite map_app, Hmap.
      + rewrite forallb_app, Hok. cbn. now rewrite Hid.
      + rewrite distinct_from_snoc, Hd. cbn [app]. now rewrite Em.
      + rewrite forallb_forall in *. intros e Hin.
        apply ends_known_grow. now apply He. }
  destruct n_id; try discriminate; now apply Hgo.
Qed.

Lemma add_edge_consistent net source to label title net' :
  Pyvis.add_edge net source to label title = Ok net' ->
  consistent net -> consistent net'.
Proof.
  unfold Pyvis.add_edge. intros H (Hmap & Hok & Hd & He).
  destruct (Py.mem source (Pyvis.node_ids net)) eqn:Es; [|discriminate].
  destruct (Py.mem to (Pyvis.node_ids net)) eqn:Et; [|discriminate].
  cbn [negb] in H. destruct (Pyvis.joined net source to);
    injection H as <-.
  - repeat split; assumption.
  - unfold consistent. cbn [Pyvis.nodes Pyvis.node_ids Pyvis.edges].
    repeat split; try assumption.
    rewrite forallb_app, He. cbn. unfold ends_known.
    cbn [Pyvis.edge_from Pyvis.edge_to]. now rewrite Es, Et.
Qed.

Lemma add_nodes_consistent py l :
  forall net net', add_nodes py net l = Ok net' ->
                   consistent net -> consistent net'.
Proof.
  induction l as [|node l IH]; intros net net'; cbn [add_nodes].
  - intros H; injection H as <-. trivial.
  - destruct (node_call py node) as [c|e]; cbn [res_bind]; [|discriminate].
    destruct (Pyvis.add_node net (arg_id c) (arg_label c) (arg_title c)
                (arg_color c) (arg_size c)) as [net1|e] eqn:E;
      cbn [res_bind]; [|discriminate].
    intros H Hc. apply (IH _ _ H). eapply add_node_consistent; eassumption.
Qed.

Lemma add_edges_consistent l :
  forall net net', add_edges net l = Ok net' ->
                   consistent net -> consistent net'.
Proof.
  induction l as [|edge l IH]; intros net net'; cbn [add_edges].
  - intros H; injection H as <-. trivial.
  - destruct (edge_call edge) as [[a|]|e]; cbn [res_bind]; [| |discriminate].
    + destruct (Pyvis.add_edge net (arg_source a) (arg_target a)
                  (arg_edge_label a) (arg_edge_label a)) as [net1|e] eqn:E;
        cbn [res_bind]; [|discriminate].
      intros H Hc. apply (IH _ _ H). eapply add_edge_consistent; eassumption.
    + apply IH.
Qed.

(** [build_network], opened up: the entries of both loops and the two
    passes that made the network. *)
Lemma build_network_steps py data net :
  build_network py data = Ok (Some net) ->
  exists mid,
    add_nodes py Pyvis.empty (entries data "nodes") = Ok mid
    /\ add_edges mid (entries data "edges") = Ok net.
Proof.
  unfold build_network, entries.
  set (data' := match data with
                | JArr _ => JObj [("nodes", data); ("edges", JArr [])]
                | _ => data
                end).
  destruct data' as [| | | | | |d]; try discriminate.
  destruct (negb (Py.dict_has "nodes" d)); [discriminate|].
  cbn [Py.get res_bind].
  destruct (Py.iter (Py.lookup d "nodes" (JArr []))) as [nl|e];
    cbn [res_bind]; [|discriminate].
  destruct (add_nodes py Pyvis.empty nl) as [mid|e] eqn:En;
    cbn [res_bind]; [|discriminate].
  destruct (Py.iter (Py.lookup d "edges" (JArr []))) as [el|e];
    cbn [res_bind]; [|discriminate].
  destruct (add_edges mid el) as [net'|e] eqn:Ee; cbn [res_bind];
    [|discriminate].
  intros H; injection H as <-. exists mid. split; [reflexivity|exact Ee].
Qed.

Lemma consistent_empty : consistent Pyvis.empty.
Proof. repeat split. Qed.

End NetFacts.

Module RenderFacts.
Import App.

Lemma node_call_is_dict py node c : node_call py node = Ok c -> is_dict node = true.
Proof. destruct node; try discriminate. reflexivity. Qed.

Lemma edge_call_is_dict edge c : edge_call edge = Ok c -> is_dict edge = true.
Proof. destruct edge; try discriminate. reflexivity. Qed.

Lemma node_call_raises py node e : node_call py node = Raise e -> e = AttributeError.
Proof.
  destruct node; cbn; try (intros H; injection H as <-; reflexivity).
  unfold node_call. cbn [Py.get res_bind].
  destruct (Py.truthy (Py.lookup d "id" JNull));
    rewrite AppFacts.create_tooltip_text_dict; discriminate.
Qed.

Lemma edge_call_raises edge e : edge_call edge = Raise e -> e = AttributeError.
Proof.
  destruct edge; cbn; try (intros H; injection H as <-; reflexivity).
  unfold edge_call. cbn [Py.get res_bind].
  destruct (Py.truthy _ && Py.truthy _); discriminate.
Qed.

Lemma add_node_raises net n_id label title color size e :
  Pyvis.add_node net n_id label title color size = Raise e -> e = AssertionError.
Proof.
  unfold Pyvis.add_node.
  destruct n_id; try (intros H; injection H as <-; reflexivity);
    destruct (Py.mem _ _); discriminate.
Qed.

Lemma add_edge_raises net source to label title e :
  Pyvis.add_edge net source to label title = Raise e -> e = AssertionError.
Proof.
  unfold Pyvis.add_edge.
  destruct (negb (Py.mem source _)); [intros H; injection H as <-; reflexivity|].
  destruct (negb (Py.mem to _)); [intros H; injection H as <-; reflexivity|].
  destruct (Pyvis.joined _ _ _); discriminate.
Qed.

Lemma iter_raises v e : Py.iter v = Raise e -> e = TypeError.
Proof. destruct v; cbn; congruence. Qed.

Lemma add_nodes_raises py l :
  forall net e, add_nodes py net l = Raise e -> renderer_error e.
Proof.
  induction l as [|node l IH]; intros net e; cbn [add_nodes]; [discriminate|].
  destruct (node_call py node) as [c|e0] eqn:Ec; cbn [res_bind].
  - destruct (Pyvis.add_node net (arg_id c) (arg_label c) (arg_title c)
                (arg_color c) (arg_size c)) as [net1|e1] eqn:Ea;
      cbn [res_bind]; [apply IH|].
    intros H; injection H as <-. apply add_node_raises in Ea. subst.
    right; right; reflexivity.
  - intros H; injection H as <-. apply node_call_raises in Ec. subst.
    left; reflexivity.
Qed.

Lemma add_edges_raises l :
  forall net e, add_edges net l = Raise e -> renderer_error e.
Proof.
  induction l as [|edge l IH]; intros net e; cbn [add_edges]; [discriminate|].
  destruct (edge_call edge) as [[a|]|e0] eqn:Ec; cbn [res_bind].
  - destruct (Pyvis.add_edge net (arg_source a) (arg_target a)
                (arg_edge_label a) (arg_edge_label a)) as [net1|e1] eqn:Ea;
      cbn [res_bind]; [apply IH|].
    intros H; injection H as <-. apply add_edge_raises in Ea. subst.
    right; right; reflexivity.
  - apply IH.
  - intros H; injection H as <-. apply edge_call_raises in Ec. subst.
    left; reflexivity.
Qed.

Lemma build_network_raises py data e :
  build_network py data = Raise e -> renderer_error e.
Proof.
  unfold build_network.
  set (data' := match data with
                | JArr _ => JObj [("nodes", data); ("edges", JArr [])]
                | _ => data
                end).
  destruct data' as [| | | | | |d]; try discriminate.
  destruct (negb (Py.dict_has "nodes" d)); [discriminate|].
  cbn [Py.get res_bind].
  destruct (Py.iter (Py.lookup d "nodes" (JArr []))) as [nl|e0] eqn:En;
    cbn [res_bind];
    [|intros H; injection H as <-; apply iter_raises in En; subst;
      right; left; reflexivity].
  destruct (add_nodes py Pyvis.empty nl) as [mid|e0] eqn:Ea; cbn [res_bind];
    [|intros H; injection H as <-; eapply add_nodes_raises; eassumption].
  destruct (Py.iter (Py.lookup d "edges" (JArr []))) as [el|e0] eqn:Ei;
    cbn [res_bind];
    [|intros H; injection H as <-; apply iter_raises in Ei; subst;
      right; left; reflexivity].
  destruct (add_edges mid el) as [net'|e0] eqn:Ee; cbn [res_bind];
    [discriminate|].
  intros H; injection H as <-. eapply add_edges_raises; eassumption.
Qed.

Lemma add_nodes_dicts py l :
  forall net net', add_nodes py net l = Ok net' -> forallb is_dict l = true.
Proof.
  induction l as [|node l IH]; intros net net'; cbn [add_nodes forallb];
    [reflexivity|].
  destruct (node_call py node) as [c|e] eqn:Ec; cbn [res_bind]; [|discriminate].
  destruct (Pyvis.add_node net (arg_id c) (arg_label c) (arg_title c)
              (arg_color c) (arg_size c)) as [net1|e]; cbn [res_bind];
    [|discriminate].
  intros H. now rewrite (node_call_is_dict _ _ _ Ec), (IH _ _ H).
Qed.

Lemma add_edges_dicts l :
  forall net net', add_edges net l = Ok net' -> forallb is_dict l = true.
Proof.
  induction l as [|edge l IH]; intros net net'; cbn [add_edges forallb];
    [reflexivity|].
  destruct (edge_call edge) as [c|e] eqn:Ec; cbn [res_bind]; [|discriminate].
  destruct (match c with
            | Some a => Pyvis.add_edge net (arg_source a) (arg_target a)
                          (arg_edge_label a) (arg_edge_label a)
            | None => Ok net
            end) as [net1|e]; cbn [res_bind]; [|discriminate].
  intros H. now rewrite (edge_call_is_dict _ _ Ec), (IH _ _ H).
Qed.

Lemma add_node_size net n_id label title color size net' :
  Pyvis.add_node net n_id label title color size = Ok net' ->
  (List.length (Pyvis.nodes net') <= S (List.length (Pyvis.nodes net)))%nat.
Proof.
  unfold Pyvis.add_node.
  destruct n_id; try discriminate; destruct (Py.mem _ _);
    intros H; injection H as <-; cbn [Pyvis.nodes];
    rewrite ?length_app; cbn; lia.
Qed.

Lemma add_nodes_size py l :
  forall net net', add_nodes py net l = Ok net' ->
    (List.length (Pyvis.nodes net')
     <= List.length (Pyvis.nodes net) + List.length l)%nat.
Proof.
  induction l as [|node l IH]; intros net net'; cbn [add_nodes].
  - intros H; injection H as <-. cbn. lia.
  - destruct (node_call py node) as [c|e]; cbn [res_bind]; [|discriminate].
    destruct (Pyvis.add_node net (arg_id c) (arg_label c) (arg_title c)
                (arg_color c) (arg_size c)) as [net1|e] eqn:Ea;
      cbn [res_bind]; [|discriminate].
    intros H. apply IH in H. apply add_node_size in Ea. cbn [List.length]. lia.
Qed.

Lemma add_edge_size net source to label title net' :
  Pyvis.add_edge net source to label title = Ok net' ->
  Pyvis.nodes net' = Pyvis.nodes net
  /\ (List.length (Pyvis.edges net') <= S (List.length (Pyvis.edges net)))%nat.
Proof.
  unfold Pyvis.add_edge.
  destruct (negb (Py.mem source _)); [discriminate|].
  destruct (negb (Py.mem to _)); [discriminate|].
  destruct (Pyvis.joined _ _ _); intros H; injection H as <-;
    cbn [Pyvis.nodes Pyvis.edges]; rewrite ?length_app; cbn;
    split; try reflexivity; lia.
Qed.

Lemma add_edges_size l :
  forall net net', add_edges net l = Ok net' ->
    Pyvis.nodes net' = Pyvis.nodes net
    /\ (List.length (Pyvis.edges net')
        <= List.length (Pyvis.edges net) + List.length l)%nat.
Proof.
  induction l as [|edge l IH]; intros net net'; cbn [add_edges].
  - intros H; injection H as <-. split; [reflexivity|cbn; lia].
  - destruct (edge_call edge) as [[a|]|e]; cbn [res_bind]; [| |discriminate].
    + destruct (Pyvis.add_edge net (arg_source a) (arg_target a)
                  (arg_edge_label a) (arg_edge_label a)) as [net1|e] eqn:Ea;
        cbn [res_bind]; [|discriminate].
      intros H. apply IH in H as [Hn Hl].
      apply add_edge_size in Ea as [En El].
      split; [congruence|cbn [List.length]; lia].
    + intros H. apply IH in H as [Hn Hl].
      split; [exact Hn|cbn [List.length]; lia].
Qed.

Lemma replace_not_empty s old new :
  s <> "" -> new <> "" -> PyStr.replace s old new <> "".
Proof.
  intros Hs Hn. unfold PyStr.replace.
  destruct old as [|a old].
  - destruct s as [|c s]; [congruence|]. cbn.
    destruct new; [congruence|discriminate].
  - destruct s as [|c s]; [congruence|]. cbn [PyStr.replace_from].
    destruct (PyStr.starts_with _ _); [|discriminate].
    destruct new; [congruence|discriminate].
Qed.

End RenderFacts.

Module NodeFacts.
Import App.

(** The arguments of [net.add_node] for a dict entry, in closed form. *)
Lemma node_call_dict py d :
  let id := Py.lookup d "id" JNull in
  let title := Py.lookup d "title" JNull in
  let group := Py.lookup d "group" (JStr "Recommended") in
  let label := if Py.truthy title then title else JStr (Py.str py id) in
  let node_id := if Py.truthy id then id else label in
  node_call py (JObj d)
  = Ok {| arg_id := node_id;
          arg_label := label;
          arg_title :=
            tooltip_format (badge_of group)
              (Py.str py (Py.or_ title (Py.or_ node_id (JStr "Untitled"))))
              (Py.str py (Py.lookup d "author" (JStr "Unknown Author")))
              (Py.str py (Py.lookup d "reason"
                            (JStr "No recommendation reason provided.")))
              (Py.str py (Py.lookup d "summary" (JStr "No summary available.")));
          arg_color := fst (marker_of group);
          arg_size := snd (marker_of group) |}.
Proof.
  cbv zeta. unfold node_call. cbn [Py.get res_bind]. unfold Py.or_ at 1.
  destruct (Py.truthy (Py.lookup d "id" JNull)) eqn:Hid.
  - rewrite AppFacts.create_tooltip_text_dict. cbn [Py.get res_bind].
    unfold Py.or_. now rewrite Hid.
  - rewrite AppFacts.create_tooltip_text_dict. cbn [Py.get res_bind].
    rewrite PyFacts.lookup_set_same.
    now rewrite !PyFacts.lookup_set_other by discriminate.
Qed.

Lemma starts_with_append p q : PyStr.starts_with p (p ++ q) = true.
Proof.
  induction p as [|a p IH]; [reflexivity|]. cbn.
  now rewrite Ascii.eqb_refl, IH.
Qed.

Lemma starts_with_badge badge book_title author reason summary :
  PyStr.starts_with badge
    (tooltip_format badge book_title author reason summary) = true.
Proof. unfold tooltip_format. apply starts_with_append. Qed.

End NodeFacts.

(* ====================================================================== *)
(** ** The claims *)
(* ====================================================================== *)

(** C1. After the code fences are stripped, [extract_json] gives the object
    with an empty [nodes] list for the fenced text; for the text with prose
    around the object the direct parse fails and the greedy match from the
    first brace to the last one is parsed instead; the text without JSON
    gives [None] and no exception.  The decoder needs two levels of
    recursion for these values. *)
Theorem extract_json_test_vectors (py : interp) :
  (2 <= recursion_limit py)%nat ->
  res_bind (App.clean (JStr fenced_text)) (App.extract_json py)
    = Ok (JObj [("nodes", JArr [])])
  /\ Json.loads py chatty_text = Raise JSONDecodeError
  /\ Re.search chatty_text = Some (PyStr.json_text "{'nodes':[],'edges':[]}")
  /\ App.extract_json py chatty_text
     = Ok (JObj [("nodes", JArr []); ("edges", JArr [])])
  /\ App.extract_json py plain_text = Ok JNull.
Proof.
  intros H. destruct py as [limit digits printable]. simpl in H.
  destruct limit as [|[|limit]]; try lia.
  repeat split; reflexivity.
Qed.

Lemma extract_json_test_vectors_witness :
  res_bind (App.clean (JStr fenced_text)) (App.extract_json cpython)
    = Ok (JObj [("nodes", JArr [])])
  /\ Json.loads cpython chatty_text = Raise JSONDecodeError
  /\ Re.search chatty_text = Some (PyStr.json_text "{'nodes':[],'edges':[]}")
  /\ App.extract_json cpython chatty_text
     = Ok (JObj [("nodes", JArr []); ("edges", JArr [])])
  /\ App.extract_json cpython plain_text = Ok JNull.
Proof.
  apply (extract_json_test_vectors cpython). simpl. lia.
Defined.

(** C2. When the first response has status 429, the client makes that one
    request, does not sleep, shows the rate-limit banner and returns
    [None]. *)
Theorem rate_limit_is_terminal (py : interp) (server : nat -> http_reply)
  (body : string) :
  server 0%nat = Reply 429 body ->
  App.get_recommendations py server
    = ([Post; StError App.rate_limit_text None], JNull)
  /\ App.posts (fst (App.get_recommendations py server)) = 1%nat
  /\ App.sleeps (fst (App.get_recommendations py server)) = [].
Proof.
  intros H.
  assert (E : App.get_recommendations py server
              = ([Post; StError App.rate_limit_text None], JNull)).
  { unfold App.get_recommendations, App.max_retries.
    now apply AppFacts.attempts_rate_limited with (body := body). }
  rewrite E. repeat split; reflexivity.
Qed.

Lemma rate_limit_is_terminal_witness :
  App.get_recommendations cpython (fun _ => Reply 429 "")
    = ([Post; StError App.rate_limit_text None], JNull)
  /\ App.posts (fst (App.get_recommendations cpython (fun _ => Reply 429 ""))) = 1%nat
  /\ App.sleeps (fst (App.get_recommendations cpython (fun _ => Reply 429 ""))) = [].
Proof.
  apply (rate_limit_is_terminal cpython (fun _ => Reply 429 "") "").
  reflexivity.
Defined.

(** C3. When every attempt is answered with status 503, the client makes
    three requests, sleeps 2 and then 5 seconds between them (the first two
    delays of the schedule 2, 5, 10), and after the third response shows
    the communication error with the HTTP error of that response and
    returns [None]. *)
Theorem unavailable_is_retried (py : interp) (server : nat -> http_reply) :
  (forall attempt, (attempt < 3)%nat ->
                   exists body, server attempt = Reply 503 body) ->
  App.get_recommendations py server
    = ([Post; Sleep 2; Post; Sleep 5; Post;
        StError App.communication_text (Some (HTTPError 503))], JNull)
  /\ App.posts (fst (App.get_recommendations py server)) = 3%nat
  /\ App.sleeps (fst (App.get_recommendations py server)) = [2; 5]%Z
  /\ App.retry_delays = [2; 5; 10]%Z.
Proof.
  intros H.
  destruct (H 0%nat ltac:(lia)) as [b0 H0].
  destruct (H 1%nat ltac:(lia)) as [b1 H1].
  destruct (H 2%nat ltac:(lia)) as [b2 H2].
  assert (E : App.get_recommendations py server
              = ([Post; Sleep 2; Post; Sleep 5; Post;
                  StError App.communication_text (Some (HTTPError 503))],
                 JNull)).
  { unfold App.get_recommendations, App.max_retries. cbn [App.attempts].
    rewrite H0, H1, H2. reflexivity. }
  rewrite E. repeat split; reflexivity.
Qed.

Lemma unavailable_is_retried_witness :
  App.get_recommendations cpython (fun _ => Reply 503 "")
    = ([Post; Sleep 2; Post; Sleep 5; Post;
        StError App.communication_text (Some (HTTPError 503))], JNull)
  /\ App.posts (fst (App.get_recommendations cpython (fun _ => Reply 503 ""))) = 3%nat
  /\ App.sleeps (fst (App.get_recommendations cpython (fun _ => Reply 503 ""))) = [2; 5]%Z
  /\ App.retry_delays = [2; 5; 10]%Z.
Proof.
  apply (unavailable_is_retried cpython (fun _ => Reply 503 "")).
  intros attempt _. exists "". reflexivity.
Defined.

(** C4. For a node entry (a dict) the renderer calls [net.add_node] with:
    the label [title], or the string form of [id] when [title] is missing or
    empty; the id [id], or that label when [id] is missing or empty (so the
    title, when there is one); colour, size and badge of the Recommended
    tier unless [group] is Seed or Level2; a tooltip in which a missing
    [author], [reason] or [summary] is replaced by its default text.  The
    graph with the single node A and no edges gives one node, of the
    Recommended tier, with the three default texts. *)
Theorem node_entry_defaults (py : interp) (d : list (string * json)) :
  let id := Py.lookup d "id" JNull in
  let title := Py.lookup d "title" JNull in
  let group := Py.lookup d "group" (JStr "Recommended") in
  let label := if Py.truthy title then title else JStr (Py.str py id) in
  let node_id := if Py.truthy id then id else label in
  App.node_call py (JObj d)
    = Ok {| App.arg_id := node_id;
            App.arg_label := label;
            App.arg_title :=
              App.tooltip_format (App.badge_of group)
                (Py.str py (Py.or_ title (Py.or_ node_id (JStr "Untitled"))))
                (Py.str py (Py.lookup d "author" (JStr "Unknown Author")))
                (Py.str py (Py.lookup d "reason"
                              (JStr "No recommendation reason provided.")))
                (Py.str py (Py.lookup d "summary" (JStr "No summary available.")));
            App.arg_color := fst (App.marker_of group);
            App.arg_size := snd (App.marker_of group) |}
  /\ (Py.truthy id = false -> Py.truthy title = true -> node_id = title)
  /\ (group <> JStr "Seed" -> group <> JStr "Level2" ->
      App.marker_of group = ("#4ECDC4", 35%Z)
      /\ App.badge_of group = "🔵 Recommended Book")
  /\ (Py.dict_get "group" d = None -> group = JStr "Recommended")
  /\ App.build_network py (JObj [("nodes", JArr [node_a]); ("edges", JArr [])])
     = Ok (Some {| Pyvis.nodes := [rendered_node_a];
                   Pyvis.node_ids := [JStr "A"];
                   Pyvis.edges := [] |}).
Proof.
  cbv zeta.
  split; [|split; [|split; [|split]]].
  - unfold App.node_call. cbn [Py.get res_bind].
    unfold Py.or_ at 1.
    destruct (Py.truthy (Py.lookup d "id" JNull)) eqn:Hid.
    + rewrite AppFacts.create_tooltip_text_dict. cbn [Py.get res_bind].
      unfold Py.or_. rewrite Hid. reflexivity.
    + rewrite AppFacts.create_tooltip_text_dict. cbn [Py.get res_bind].
      rewrite PyFacts.lookup_set_same.
      rewrite !PyFacts.lookup_set_other by discriminate.
      reflexivity.
  - intros Hid Ht. now rewrite Hid, Ht.
  - intros Hs Hl. unfold App.marker_of, App.badge_of.
    now rewrite !PyFacts.eq_str_false.
  - intros H. unfold Py.lookup. now rewrite H.
  - reflexivity.
Qed.

Lemma node_entry_defaults_witness :
  App.node_call cpython (JObj [("title", JStr "Nausea"); ("group", JStr "Other")])
  = Ok {| App.arg_id := JStr "Nausea";
          App.arg_label := JStr "Nausea";
          App.arg_title :=
            App.tooltip_format "🔵 Recommended Book" "Nausea" "Unknown Author"
              "No recommendation reason provided." "No summary available.";
          App.arg_color := "#4ECDC4";
          App.arg_size := 35 |}
  /\ App.marker_of (JStr "Other") = ("#4ECDC4", 35%Z).
Proof.
  pose proof (node_entry_defaults cpython
                [("title", JStr "Nausea"); ("group", JStr "Other")])
    as (Hcall & Hid & Hgroup & _).
  split.
  - exact Hcall.
  - apply Hgroup; discriminate.
Defined.

(** C5, as stated, fails: both edge entries of [two_way_graph] have a
    source and a target, and the network ends with one edge, because an
    undirected pyvis network keeps one edge between two nodes. *)
Lemma second_edge_entry_not_added :
  App.edge_call (edge_between "A" "B")
    = Ok (Some {| App.arg_source := JStr "A"; App.arg_target := JStr "B";
                  App.arg_edge_label := JStr "Related" |})
  /\ App.edge_call (edge_between "B" "A")
     = Ok (Some {| App.arg_source := JStr "B"; App.arg_target := JStr "A";
                   App.arg_edge_label := JStr "Related" |})
  /\ edges_of (App.build_network cpython two_way_graph)
     = Some [ {| Pyvis.edge_from := JStr "A"; Pyvis.edge_to := JStr "B";
                 Pyvis.edge_label := JStr "Related";
                 Pyvis.edge_title := JStr "Related" |} ].
Proof. repeat split; reflexivity. Qed.

(** C5, amended. For an edge entry (a dict) the renderer calls
    [net.add_edge] if and only if [source] and [target] are both true values
    (present and, for strings, not empty), with [label] defaulting to
    Related; an entry that lacks either is dropped and leaves the network
    as it was; an entry that has both enters the network when its ends are
    ids of nodes that no edge joins yet.  The test vector whose edge has no
    target gives zero edges. *)
Theorem edge_entry_guard (py : interp) (net : Pyvis.network)
  (d : list (string * json)) :
  let source := Py.lookup d "source" JNull in
  let target := Py.lookup d "target" JNull in
  let label := Py.lookup d "label" (JStr "Related") in
  App.edge_call (JObj d)
    = Ok (if Py.truthy source && Py.truthy target
          then Some {| App.arg_source := source; App.arg_target := target;
                       App.arg_edge_label := label |}
          else None)
  /\ (Py.dict_get "source" d = None \/ Py.dict_get "target" d = None ->
      App.edge_call (JObj d) = Ok None)
  /\ (forall s t, source = JStr s -> target = JStr t ->
      (Py.truthy source && Py.truthy target = true <-> s <> "" /\ t <> ""))
  /\ (Py.dict_get "label" d = None -> label = JStr "Related")
  /\ (Py.truthy source && Py.truthy target = false ->
      App.add_edges net [JObj d] = Ok net)
  /\ (Py.truthy source && Py.truthy target = true ->
      Py.mem source (Pyvis.node_ids net) = true ->
      Py.mem target (Pyvis.node_ids net) = true ->
      Pyvis.joined net source target = false ->
      App.add_edges net [JObj d]
      = Ok {| Pyvis.nodes := Pyvis.nodes net;
              Pyvis.node_ids := Pyvis.node_ids net;
              Pyvis.edges :=
                Pyvis.edges net
                ++ [ {| Pyvis.edge_from := source; Pyvis.edge_to := target;
                        Pyvis.edge_label := label;
                        Pyvis.edge_title := label |} ] |})
  /\ edges_of (App.build_network py half_edge_graph) = Some [].
Proof.
  cbv zeta.
  assert (Hcall : App.edge_call (JObj d)
            = Ok (if Py.truthy (Py.lookup d "source" JNull)
                     && Py.truthy (Py.lookup d "target" JNull)
                  then Some {| App.arg_source := Py.lookup d "source" JNull;
                               App.arg_target := Py.lookup d "target" JNull;
                               App.arg_edge_label :=
                                 Py.lookup d "label" (JStr "Related") |}
                  else None)).
  { unfold App.edge_call. cbn [Py.get res_bind].
    destruct (Py.truthy (Py.lookup d "source" JNull)
              && Py.truthy (Py.lookup d "target" JNull)); reflexivity. }
  split; [exact Hcall|].
  split.
  { intros [H|H]; rewrite Hcall; unfold Py.lookup; rewrite H; cbn [Py.truthy];
      [reflexivity|now rewrite andb_false_r]. }
  split.
  { intros s t -> ->. rewrite andb_true_iff, !PyFacts.truthy_str. tauto. }
  split.
  { intros H. unfold Py.lookup. now rewrite H. }
  split.
  { intros H. cbn [App.add_edges]. rewrite Hcall, H. reflexivity. }
  split.
  { intros H Hs Ht Hj. cbn [App.add_edges]. rewrite Hcall, H.
    cbn [res_bind App.arg_source App.arg_target App.arg_edge_label].
    unfold Pyvis.add_edge. rewrite Hs, Ht, Hj. reflexivity. }
  reflexivity.
Qed.

Lemma edge_entry_guard_witness :
  App.add_edges Pyvis.empty [JObj [("source", JStr "A")]] = Ok Pyvis.empty
  /\ App.edge_call (JObj [("source", JStr "A")]) = Ok None.
Proof.
  pose proof (edge_entry_guard cpython Pyvis.empty [("source", JStr "A")])
    as (_ & Hmissing & _ & _ & Hdrop & _).
  split.
  - apply Hdrop. reflexivity.
  - apply Hmissing. right. reflexivity.
Defined.

(** C6. A bare list is rendered as the graph that has the list for its
    nodes and no edge entries; whatever network comes out of it has no
    edges; the list with the single node A gives that node and no edge. *)
Theorem bare_list_is_nodes (py : interp) (l : list json) :
  App.build_network py (JArr l)
    = App.build_network py (JObj [("nodes", JArr l); ("edges", JArr [])])
  /\ match App.build_network py (JArr l) with
     | Ok (Some net) => Pyvis.edges net = []
     | Ok None => False
     | Raise _ => True
     end
  /\ App.build_network py (JArr [node_a])
     = Ok (Some {| Pyvis.nodes := [rendered_node_a];
                   Pyvis.node_ids := [JStr "A"];
                   Pyvis.edges := [] |}).
Proof.
  split; [reflexivity|]. split; [|reflexivity].
  unfold App.build_network.
  cbn [Py.dict_has Py.dict_get String.eqb Ascii.eqb Bool.eqb negb Py.get
       Py.lookup Py.iter res_bind].
  destruct (App.add_nodes py Pyvis.empty l) as [net|e] eqn:E; cbn [res_bind];
    [|exact I].
  cbn [App.add_edges]. apply AppFacts.add_nodes_edges in E. exact E.
Qed.

(** C7. A non-empty dict whose [edges] entry is missing or empty gets the
    banner that no connections could be generated and nothing else,
    whatever saving the graph would do; and the graph view is shown only
    for a dict whose [edges] entry is a true value. *)
Theorem zero_edges_is_content_failure (py : interp)
  (save_graph : Pyvis.network -> res string) (data : json) :
  (forall d, data = JObj d -> d <> [] ->
             Py.truthy (Py.lookup d "edges" JNull) = false ->
             App.display_results py save_graph data
             = ([StError App.no_edges_text None], Ok tt))
  /\ (forall html height,
        In (ComponentsHtml html height)
           (fst (App.display_results py save_graph data)) ->
        exists d, data = JObj d
                  /\ Py.truthy (Py.lookup d "edges" JNull) = true).
Proof.
  split.
  - intros d -> Hd He. unfold App.display_results.
    destruct d as [|kv d]; [contradiction|].
    cbn [Py.truthy Py.get]. rewrite He. reflexivity.
  - intros html height. unfold App.display_results.
    destruct (Py.truthy data) eqn:Ht; [|simpl; intros [H|[]]; discriminate].
    destruct data as [| | | | | |d]; cbn [Py.get fst];
      try (intros []).
    destruct (Py.truthy (Py.lookup d "edges" JNull)) eqn:He;
      [|simpl; intros [H|[]]; discriminate].
    intros _. exists d. split; [reflexivity|exact He].
Qed.

Lemma zero_edges_is_content_failure_witness :
  App.display_results cpython (fun _ => Raise OSError)
    (JObj [("nodes", JArr [node_a]); ("edges", JArr [])])
  = ([StError App.no_edges_text None], Ok tt).
Proof.
  pose proof (zero_edges_is_content_failure cpython (fun _ => Raise OSError)
                (JObj [("nodes", JArr [node_a]); ("edges", JArr [])]))
    as [Hbanner _].
  apply (Hbanner [("nodes", JArr [node_a]); ("edges", JArr [])]).
  - reflexivity.
  - discriminate.
  - reflexivity.
Defined.

(** C8. The renderer does not get past a dangling edge: [net.add_edge]
    fails its assertion that the target is a node, nothing in
    [visualize_network] or in the main block catches the [AssertionError],
    and no document is produced. *)
Theorem dangling_edge_is_not_permitted (py : interp)
  (save_graph : Pyvis.network -> res string) :
  App.edge_call (edge_between "A" "B")
    = Ok (Some {| App.arg_source := JStr "A"; App.arg_target := JStr "B";
                  App.arg_edge_label := JStr "Related" |})
  /\ App.build_network py dangling_graph = Raise AssertionError
  /\ App.visualize_network py save_graph dangling_graph
     = ([], Raise AssertionError)
  /\ App.display_results py save_graph dangling_graph
     = ([], Raise AssertionError).
Proof. repeat split; reflexivity. Qed.

(** C9. A bare list comes out of the extraction stage as a list, and the
    result handling calls [data.get] on it: the [AttributeError] leaves the
    main block unhandled, although [visualize_network] would have rendered
    the list.  The same holds for the other true values that are not dicts.
    (The halt the design allows is the one of a missing or empty API key.) *)
Theorem bare_list_is_unhandled (py : interp)
  (save_graph : Pyvis.network -> res string) :
  App.get_recommendations cpython (fun _ => bare_list_reply)
    = ([Post], JArr [node_a])
  /\ App.main cpython (fun _ => bare_list_reply) save_graph
     = ([Post], Raise AttributeError)
  /\ App.display_results py save_graph (JArr [node_a])
     = ([], Raise AttributeError)
  /\ edges_of (App.build_network py (JArr [node_a])) = Some []
  /\ App.display_results py save_graph (JStr "A") = ([], Raise AttributeError)
  /\ App.display_results py save_graph (JInt 5) = ([], Raise AttributeError)
  /\ App.display_results py save_graph (JBool true)
     = ([], Raise AttributeError)
  /\ App.load_api_key None
     = ([StError App.api_key_text None; StInfo; StStop], None)
  /\ App.load_api_key (Some "")
     = ([StError App.api_key_text None; StInfo; StStop], None).
Proof.
  split; [reflexivity|]. split; [reflexivity|].
  repeat split;
    try (apply AppFacts.display_results_not_dict;
         [reflexivity|discriminate]);
    reflexivity.
Qed.

(** C10. [extract_json] gives [None] for the JSON text null as it does for
    text without JSON, and the main block reports [None] as no response;
    but text that opens one array more than the decoder may enter makes the
    first [json.loads] raise [RecursionError], which [extract_json] does not
    catch (and an integer of more digits than the conversion limit makes it
    raise [ValueError]). *)
Theorem extract_json_can_raise (py : interp)
  (save_graph : Pyvis.network -> res string) :
  App.extract_json py (nested (S (recursion_limit py))) = Raise RecursionError
  /\ App.extract_json cpython (ones 4301) = Raise ValueError
  /\ App.extract_json py "null" = Ok JNull
  /\ App.extract_json py plain_text = Ok JNull
  /\ App.display_results py save_graph JNull
     = ([StError App.no_response_text None], Ok tt).
Proof.
  split;
    [|split; [vm_compute; reflexivity
             |destruct py as [[|limit] digits printable];
              repeat split; reflexivity]].
  unfold App.extract_json, Json.loads. cbn [nested].
  change (PyStr.starts_with Json.bom (String "[" (nested (recursion_limit py))))
    with false.
  change (Json.skip_ws (String "[" (nested (recursion_limit py))))
    with (String "[" (nested (recursion_limit py))).
  cbv iota. rewrite ExtractFacts.scan_once_nested. reflexivity.
Qed.

(* ====================================================================== *)
(** ** Further properties of the code *)
(* ====================================================================== *)

(** X1. Whatever the service answers, one call makes at least one and at
    most three requests, and sleeps between consecutive requests only: 2
    seconds after the first and 5 after the second.  The third delay of the
    schedule is never slept. *)
Theorem request_budget (py : interp) (server : nat -> http_reply) :
  let evs := fst (App.get_recommendations py server) in
  (1 <= App.posts evs <= 3)%nat
  /\ App.sleeps evs = firstn (App.posts evs - 1) [2; 5]%Z.
Proof.
  cbv zeta. unfold App.get_recommendations, App.max_retries.
  cbn [App.attempts].
  destruct (ClientFacts.attempt_body_cases py 0 (server 0%nat))
    as [(evs0 & d0 & -> & Hp0 & Hs0)|[_ ->]].
  { cbn [fst]. change (App.posts (Post :: evs0)) with (S (App.posts evs0)).
    change (App.sleeps (Post :: evs0)) with (App.sleeps evs0).
    rewrite Hp0, Hs0. split; [lia|reflexivity]. }
  destruct (ClientFacts.attempt_body_cases py 1 (server 1%nat))
    as [(evs1 & d1 & -> & Hp1 & Hs1)|[_ ->]].
  { cbn [fst app]. 
    change (App.posts (Post :: Sleep (nth 0 App.retry_delays 0%Z) :: Post :: evs1))
      with (S (S (App.posts evs1))).
    change (App.sleeps (Post :: Sleep (nth 0 App.retry_delays 0%Z) :: Post :: evs1))
      with (2%Z :: App.sleeps evs1).
    rewrite Hp1, Hs1. split; [lia|reflexivity]. }
  destruct (ClientFacts.attempt_body_cases py 2 (server 2%nat))
    as [(evs2 & d2 & -> & Hp2 & Hs2)|[Hlt _]]; [|lia].
  cbn [fst app].
  change (App.posts (Post :: Sleep (nth 0 App.retry_delays 0%Z) :: Post
                     :: Sleep (nth 1 App.retry_delays 0%Z) :: Post :: evs2))
    with (S (S (S (App.posts evs2)))).
  change (App.sleeps (Post :: Sleep (nth 0 App.retry_delays 0%Z) :: Post
                      :: Sleep (nth 1 App.retry_delays 0%Z) :: Post :: evs2))
    with (2%Z :: 5%Z :: App.sleeps evs2).
  rewrite Hp2, Hs2. split; [lia|reflexivity].
Qed.

(** X2. When every attempt fails (the request raises, the status is an
    error other than 429, or the body cannot be read), the client makes
    three requests, sleeps 2 and 5 seconds between them, shows the
    communication error with the exception of the third attempt and
    returns [None]. *)
Theorem failures_exhaust_retries (py : interp) (server : nat -> http_reply)
  (e0 e1 e2 : exc) :
  failure_of py (server 0%nat) = Some e0 ->
  failure_of py (server 1%nat) = Some e1 ->
  failure_of py (server 2%nat) = Some e2 ->
  App.get_recommendations py server
  = ([Post; Sleep 2; Post; Sleep 5; Post;
      StError App.communication_text (Some e2)], JNull).
Proof.
  intros H0 H1 H2. unfold App.get_recommendations, App.max_retries.
  cbn [App.attempts].
  rewrite (ClientFacts.attempt_body_failure py 0 _ e0 H0).
  rewrite (ClientFacts.attempt_body_failure py 1 _ e1 H1).
  rewrite (ClientFacts.attempt_body_failure py 2 _ e2 H2).
  reflexivity.
Qed.

Lemma failures_exhaust_retries_witness :
  App.get_recommendations cpython
    (fun attempt => match attempt with
                    | O => NoReply RequestException
                    | 1%nat => Reply 500 ""
                    | _ => Reply 200 "<html>"
                    end)
  = ([Post; Sleep 2; Post; Sleep 5; Post;
      StError App.communication_text (Some JSONDecodeError)], JNull).
Proof.
  apply (failures_exhaust_retries cpython _ RequestException (HTTPError 500)
           JSONDecodeError); reflexivity.
Defined.

(** X3. A failed first attempt followed by a response that is read without
    an exception costs one sleep of 2 seconds and returns the value read
    from the second response, with no banner. *)
Theorem retry_then_success (py : interp) (server : nat -> http_reply)
  (e : exc) (status_code : Z) (body : string) (data : json) :
  failure_of py (server 0%nat) = Some e ->
  server 1%nat = Reply status_code body ->
  App.read_response py status_code body = Ok data ->
  App.get_recommendations py server = ([Post; Sleep 2; Post], data).
Proof.
  intros H0 H1 Hr. unfold App.get_recommendations, App.max_retries.
  cbn [App.attempts].
  rewrite (ClientFacts.attempt_body_failure py 0 _ e H0). cbn [Nat.ltb Nat.leb].
  rewrite H1, (ClientFacts.attempt_body_success py 1 _ _ _ Hr). reflexivity.
Qed.

Lemma retry_then_success_witness :
  App.get_recommendations cpython
    (fun attempt => match attempt with
                    | O => Reply 503 ""
                    | _ => bare_list_reply
                    end)
  = ([Post; Sleep 2; Post], JArr [node_a]).
Proof.
  apply (retry_then_success cpython _ (HTTPError 503) 200
           (PyStr.json_text
              "{'candidates':[{'content':{'parts':[{'text':'[{\'id\':\'A\'}]'}]}}]}"));
    reflexivity.
Defined.

(** X4. A response with status 429 ends the call also when it answers a
    retry: after one failed attempt the client has made two requests, slept
    2 seconds once, and shows the rate-limit banner. *)
Theorem rate_limit_after_retry (py : interp) (server : nat -> http_reply)
  (e : exc) (body : string) :
  failure_of py (server 0%nat) = Some e ->
  server 1%nat = Reply 429 body ->
  App.get_recommendations py server
  = ([Post; Sleep 2; Post; StError App.rate_limit_text None], JNull).
Proof.
  intros H0 H1. unfold App.get_recommendations, App.max_retries.
  cbn [App.attempts].
  rewrite (ClientFacts.attempt_body_failure py 0 _ e H0). cbn [Nat.ltb Nat.leb].
  now rewrite H1.
Qed.

Lemma rate_limit_after_retry_witness :
  App.get_recommendations cpython
    (fun attempt => match attempt with
                    | O => Reply 503 ""
                    | _ => Reply 429 ""
                    end)
  = ([Post; Sleep 2; Post; StError App.rate_limit_text None], JNull).
Proof.
  apply (rate_limit_after_retry cpython _ (HTTPError 503) ""); reflexivity.
Defined.

(** X5. A response whose envelope has no candidates (the key is missing,
    or its value is empty) ends the call at once with [None]: no retry, no
    sleep and no banner from the client. *)
Theorem no_candidates_is_none (py : interp) (server : nat -> http_reply)
  (status_code : Z) (body : string) (d : list (string * json)) :
  server 0%nat = Reply status_code body ->
  ((400 <=? status_code) && (status_code <? 600))%Z = false ->
  Json.loads py body = Ok (JObj d) ->
  Py.truthy (Py.lookup d "candidates" JNull) = false ->
  App.get_recommendations py server = ([Post], JNull).
Proof.
  intros Hs Hok Hl Hc.
  assert (Hr : App.read_response py status_code body = Ok JNull).
  { unfold App.read_response. rewrite (ReadFacts.raise_for_status_ok _ Hok).
    cbn [res_bind]. rewrite Hl. cbn [res_bind Py.contains Py.getitem_key].
    unfold Py.dict_has. unfold Py.lookup in Hc.
    destruct (Py.dict_get "candidates" d) as [c|]; cbn [res_bind];
      [now rewrite Hc|reflexivity]. }
  unfold App.get_recommendations, App.max_retries. cbn [App.attempts].
  now rewrite Hs, (ClientFacts.attempt_body_success py 0 _ _ _ Hr).
Qed.

Lemma no_candidates_is_none_witness :
  App.get_recommendations cpython
    (fun _ => Reply 200 (PyStr.json_text "{'candidates': [], 'usage': 3}"))
  = ([Post], JNull).
Proof.
  apply (no_candidates_is_none cpython _ 200
           (PyStr.json_text "{'candidates': [], 'usage': 3}")
           [("candidates", JArr []); ("usage", JInt 3)]); reflexivity.
Defined.

(** X6. Of a well-formed envelope only the text of the first part of the
    first candidate is used: the value read is [extract_json] of that text
    with the fence markers removed and the white space around it stripped;
    further candidates, further parts and other members play no role. *)
Theorem first_candidate_text_is_extracted (py : interp) (status_code : Z)
  (body text : string) (d c k p : list (string * json))
  (candidates parts : list json) :
  ((400 <=? status_code) && (status_code <? 600))%Z = false ->
  Json.loads py body = Ok (JObj d) ->
  Py.dict_get "candidates" d = Some (JArr (JObj c :: candidates)) ->
  Py.dict_get "content" c = Some (JObj k) ->
  Py.dict_get "parts" k = Some (JArr (JObj p :: parts)) ->
  Py.dict_get "text" p = Some (JStr text) ->
  App.read_response py status_code body
  = App.extract_json py
      (PyStr.strip (PyStr.replace (PyStr.replace text "```json" "") "```" "")).
Proof.
  intros Hok Hl Hc Hk Hp Ht.
  unfold App.read_response. rewrite (ReadFacts.raise_for_status_ok _ Hok).
  cbn [res_bind]. rewrite Hl.
  cbn [res_bind Py.contains Py.getitem_key]. unfold Py.dict_has.
  rewrite Hc. cbn [res_bind Py.truthy Py.getitem_0 Py.getitem_key].
  rewrite Hk. cbn [res_bind Py.getitem_key]. rewrite Hp.
  cbn [res_bind Py.getitem_0 Py.getitem_key]. rewrite Ht.
  reflexivity.
Qed.

Lemma first_candidate_text_is_extracted_witness :
  App.read_response cpython 200
    (PyStr.json_text
       "{'candidates':[{'content':{'parts':[{'text':'[1]'},{'text':'[2]'}]}},{'content':3}]}")
  = App.extract_json cpython
      (PyStr.strip (PyStr.replace (PyStr.replace "[1]" "```json" "") "```" "")).
Proof.
  apply (first_candidate_text_is_extracted cpython 200 _ "[1]"
           [("candidates",
             JArr [JObj [("content",
                          JObj [("parts", JArr [JObj [("text", JStr "[1]")];
                                                JObj [("text", JStr "[2]")]])])];
                   JObj [("content", JInt 3)]])]
           [("content",
             JObj [("parts", JArr [JObj [("text", JStr "[1]")];
                                   JObj [("text", JStr "[2]")]])])]
           [("parts", JArr [JObj [("text", JStr "[1]")];
                            JObj [("text", JStr "[2]")]])]
           [("text", JStr "[1]")]
           [JObj [("content", JInt 3)]]
           [JObj [("text", JStr "[2]")]]); reflexivity.
Defined.

(** X7. Text without a fence marker is only stripped of the white space
    around it. *)
Theorem clean_without_fence (s : string) :
  PyStr.contains "```" s = false ->
  App.clean (JStr s) = Ok (PyStr.strip s).
Proof.
  intros H. cbn [App.clean].
  assert (Hjson : PyStr.contains "```json" s = false).
  { apply (StrFacts.contains_weaken "```json" "```" s); [|exact H].
    intros t. apply (StrFacts.starts_with_app "```" "json"). }
  rewrite (StrFacts.replace_absent s "```json" "") by (discriminate || exact Hjson).
  now rewrite StrFacts.replace_absent by (discriminate || exact H).
Qed.

Lemma clean_without_fence_witness :
  App.clean (JStr " {} ") = Ok (PyStr.strip " {} ").
Proof.
  apply (clean_without_fence " {} "). reflexivity.
Defined.

(** X8. Whatever the text, no fence marker is left in the cleaned text
    that goes to [extract_json]. *)
Theorem clean_leaves_no_fence (s t : string) :
  App.clean (JStr s) = Ok t -> PyStr.contains "```" t = false.
Proof.
  cbn [App.clean]. intros H; injection H as <-.
  destruct (PyStr.contains "```" (PyStr.strip _)) eqn:E; [|reflexivity].
  apply StrFacts.contains_strip in E.
  pose proof (StrFacts.unfence_clean (PyStr.replace s "```json" "") 0) as F.
  unfold fence in F. cbn [PyStr.replace] in F. congruence.
Qed.

Lemma clean_leaves_no_fence_witness :
  PyStr.contains "```" "``" = false.
Proof.
  apply (clean_leaves_no_fence "````````" "``"). reflexivity.
Defined.

(** X9. The only exceptions that leave [extract_json] are [RecursionError]
    and [ValueError], and they come from the first [json.loads]; a
    [JSONDecodeError] never leaves it, and nothing raised while the matched
    substring is parsed does. *)
Theorem extract_json_escapes (py : interp) (text : string) (e : exc) :
  App.extract_json py text = Raise e ->
  Json.loads py text = Raise e /\ (e = RecursionError \/ e = ValueError).
Proof. apply ExtractFacts.extract_json_raises. Qed.

Lemma extract_json_escapes_witness :
  Json.loads cpython (ones 4301) = Raise ValueError
  /\ (ValueError = RecursionError \/ ValueError = ValueError).
Proof.
  apply (extract_json_escapes cpython (ones 4301) ValueError).
  vm_compute. reflexivity.
Defined.

(** X10. The fallback recovers an object (or an array) that is wrapped in
    prose, provided the prose before it has no opening brace or bracket and
    the prose after it has no closing character of its kind: the match is
    exactly the wrapped text, and when the whole text is no JSON the result
    is what the wrapped text parses to ([None] if it does not parse). *)
Theorem wrapped_json_is_recovered (py : interp) (opening closing : ascii)
  (pre mid post : string) :
  (opening = "{"%char /\ closing = "}"%char)
  \/ (opening = "["%char /\ closing = "]"%char) ->
  has_char "{" pre = false -> has_char "[" pre = false ->
  has_char closing post = false ->
  let wrapped := String opening (mid ++ String closing "") in
  let text := pre ++ wrapped ++ post in
  Re.search text = Some wrapped
  /\ (Json.loads py text = Raise JSONDecodeError ->
      App.extract_json py text
      = match Json.loads py wrapped with
        | Ok v => Ok v
        | Raise _ => Ok JNull
        end).
Proof.
  intros Hkind Hb Hk Hpost wrapped text.
  assert (Hs : Re.search text = Some wrapped).
  { subst text wrapped. induction pre as [|c pre IH].
    - cbn [append Re.search]. rewrite ReFacts.append_assoc. cbn [append].
      destruct Hkind as [[-> ->]|[-> ->]];
        cbn [Ascii.eqb Bool.eqb];
        now rewrite (ReFacts.upto_last_app _ mid post Hpost).
    - cbn in Hb, Hk. apply orb_false_iff in Hb as [Hb1 Hb2].
      apply orb_false_iff in Hk as [Hk1 Hk2].
      cbn [append Re.search]. rewrite Hb1, Hk1. now apply IH. }
  split; [exact Hs|].
  intros Hl. unfold App.extract_json. now rewrite Hl, Hs.
Qed.

Lemma wrapped_json_is_recovered_witness :
  Re.search ("Sure: " ++ String "[" ("1, 2" ++ String "]" "") ++ " ok")
  = Some (String "[" ("1, 2" ++ String "]" "")).
Proof.
  apply (wrapped_json_is_recovered cpython "[" "]" "Sure: " "1, 2" " ok");
    try reflexivity. right. split; reflexivity.
Defined.

(** X11. Whatever [re.search] matches is a contiguous part of the text that
    runs from an opening brace to a closing brace, or from an opening
    bracket to a closing bracket, and no closing character of that kind
    comes after it: the match is greedy. *)
Theorem search_result_shape (text m : string) :
  Re.search text = Some m ->
  exists pre mid post,
    text = pre ++ m ++ post
    /\ ((m = String "{" (mid ++ "}") /\ has_char "}" post = false)
        \/ (m = String "[" (mid ++ "]") /\ has_char "]" post = false)).
Proof.
  revert m. induction text as [|c s IH]; intros m; [discriminate|].
  assert (Hrec : Re.search s = Some m ->
            exists pre mid post,
              String c s = pre ++ m ++ post
              /\ ((m = String "{" (mid ++ "}") /\ has_char "}" post = false)
                  \/ (m = String "[" (mid ++ "]") /\ has_char "]" post = false))).
  { intros H. destruct (IH m H) as (pre & mid & post & -> & Hm).
    exists (String c pre), mid, post. split; [reflexivity|exact Hm]. }
  cbn [Re.search].
  destruct (Ascii.eqb c "{") eqn:Eb.
  { apply Ascii.eqb_eq in Eb. subst c.
    destruct (Re.upto_last "}" s) as [m'|] eqn:E; [|exact Hrec].
    intros H; injection H as <-.
    destruct (ReFacts.upto_last_shape _ _ _ E) as (mid & post & -> & -> & Hp).
    exists "", mid, post. split; [reflexivity|]. left. split; [reflexivity|exact Hp]. }
  destruct (Ascii.eqb c "[") eqn:Ek; [|exact Hrec].
  apply Ascii.eqb_eq in Ek. subst c.
  destruct (Re.upto_last "]" s) as [m'|] eqn:E; [|exact Hrec].
  intros H; injection H as <-.
  destruct (ReFacts.upto_last_shape _ _ _ E) as (mid & post & -> & -> & Hp).
  exists "", mid, post. split; [reflexivity|]. right. split; [reflexivity|exact Hp].
Qed.

Lemma search_result_shape_witness :
  exists pre mid post,
    "a [ {b} c" = pre ++ "{b}" ++ post
    /\ (("{b}" = String "{" (mid ++ "}") /\ has_char "}" post = false)
        \/ ("{b}" = String "[" (mid ++ "]") /\ has_char "]" post = false)).
Proof.
  apply (search_result_shape "a [ {b} c" "{b}"). reflexivity.
Defined.

(** X12. Text without an opening brace or bracket, and text without a
    closing one, gives no match; [extract_json] then returns [None]
    whenever the text itself is no JSON. *)
Theorem no_bracket_no_match (py : interp) (text : string) :
  (has_char "{" text = false /\ has_char "[" text = false)
  \/ (has_char "}" text = false /\ has_char "]" text = false) ->
  Re.search text = None
  /\ (Json.loads py text = Raise JSONDecodeError ->
      App.extract_json py text = Ok JNull).
Proof.
  intros H.
  assert (Hs : Re.search text = None).
  { induction text as [|c s IH]; [reflexivity|]. cbn [Re.search].
    destruct H as [[Hb Hk]|[Hb Hk]]; cbn in Hb, Hk;
      apply orb_false_iff in Hb as [Hb1 Hb2];
      apply orb_false_iff in Hk as [Hk1 Hk2].
    - rewrite Hb1, Hk1. apply IH. left. now split.
    - rewrite (ReFacts.upto_last_none _ _ Hb2), (ReFacts.upto_last_none _ _ Hk2).
      assert (Hrec : Re.search s = None) by (apply IH; right; now split).
      rewrite Hrec. now destruct (Ascii.eqb c "{"), (Ascii.eqb c "["). }
  split; [exact Hs|].
  intros Hl. unfold App.extract_json. now rewrite Hl, Hs.
Qed.

Lemma no_bracket_no_match_witness :
  Re.search "I cannot help with {that" = None
  /\ (Json.loads cpython "I cannot help with {that" = Raise JSONDecodeError ->
      App.extract_json cpython "I cannot help with {that" = Ok JNull).
Proof.
  apply (no_bracket_no_match cpython "I cannot help with {that").
  right. split; reflexivity.
Defined.

(** X13. Marker and badge of a node always belong to the same tier: a Seed
    node is red, of size 50, and its tooltip opens with the input-book
    badge; a Level2 node is yellow, of size 25, with the deep-recommendation
    badge; every other node is teal, of size 35, with the recommended-book
    badge. *)
Theorem marker_and_badge_agree (py : interp) (d : list (string * json)) :
  let group := Py.lookup d "group" (JStr "Recommended") in
  exists c,
    App.node_call py (JObj d) = Ok c
    /\ ((group = JStr "Seed"
         /\ App.arg_color c = "#FF6B6B" /\ App.arg_size c = 50%Z
         /\ PyStr.starts_with "🔴 Your Input Book" (App.arg_title c) = true)
        \/ (group = JStr "Level2"
            /\ App.arg_color c = "#FFD93D" /\ App.arg_size c = 25%Z
            /\ PyStr.starts_with "🟡 Deep Recommendation" (App.arg_title c)
               = true)
        \/ (Py.eq group (JStr "Seed") = false
            /\ Py.eq group (JStr "Level2") = false
            /\ App.arg_color c = "#4ECDC4" /\ App.arg_size c = 35%Z
            /\ PyStr.starts_with "🔵 Recommended Book" (App.arg_title c)
               = true)).
Proof.
  cbv zeta. eexists. split; [apply NodeFacts.node_call_dict|].
  cbn [App.arg_color App.arg_size App.arg_title].
  unfold App.marker_of.
  destruct (Py.eq (Py.lookup d "group" (JStr "Recommended")) (JStr "Seed"))
    eqn:Es.
  { left. apply PyFacts.eq_str_true in Es.
    repeat split; try assumption.
    rewrite Es. apply NodeFacts.starts_with_badge. }
  destruct (Py.eq (Py.lookup d "group" (JStr "Recommended")) (JStr "Level2"))
    eqn:El.
  { right; left. apply PyFacts.eq_str_true in El.
    repeat split; try assumption.
    rewrite El. apply NodeFacts.starts_with_badge. }
  right; right. repeat split.
  replace "🔵 Recommended Book"
    with (App.badge_of (Py.lookup d "group" (JStr "Recommended")))
    by (unfold App.badge_of; now rewrite Es, El).
  apply NodeFacts.starts_with_badge.
Qed.

(** X14. An entry that has neither [id] nor [title] becomes a node whose id
    and label are the text None, the string form of the missing id, and
    whose tooltip shows None as the title: the default title Untitled is
    not used for it. *)
Theorem entry_without_id_and_title (py : interp) (d : list (string * json)) :
  Py.dict_get "id" d = None -> Py.dict_get "title" d = None ->
  let group := Py.lookup d "group" (JStr "Recommended") in
  App.node_call py (JObj d)
  = Ok {| App.arg_id := JStr "None";
          App.arg_label := JStr "None";
          App.arg_title :=
            App.tooltip_format (App.badge_of group) "None"
              (Py.str py (Py.lookup d "author" (JStr "Unknown Author")))
              (Py.str py (Py.lookup d "reason"
                            (JStr "No recommendation reason provided.")))
              (Py.str py (Py.lookup d "summary" (JStr "No summary available.")));
          App.arg_color := fst (App.marker_of group);
          App.arg_size := snd (App.marker_of group) |}.
Proof.
  intros Hid Ht. cbv zeta. rewrite NodeFacts.node_call_dict.
  assert (Ei : Py.lookup d "id" JNull = JNull)
    by (unfold Py.lookup; now rewrite Hid).
  assert (Et : Py.lookup d "title" JNull = JNull)
    by (unfold Py.lookup; now rewrite Ht).
  rewrite Ei, Et. reflexivity.
Qed.

Lemma entry_without_id_and_title_witness :
  App.node_call cpython (JObj [("author", JStr "Camus")])
  = Ok {| App.arg_id := JStr "None";
          App.arg_label := JStr "None";
          App.arg_title :=
            App.tooltip_format "🔵 Recommended Book" "None" "Camus"
              "No recommendation reason provided." "No summary available.";
          App.arg_color := "#4ECDC4";
          App.arg_size := 35 |}.
Proof.
  apply (entry_without_id_and_title cpython [("author", JStr "Camus")]);
    reflexivity.
Defined.

(** X15. Every network the renderer builds is consistent: its list of ids
    is the ids of its nodes in order, every id is a [str] or an [int], no
    id occurs twice, and both ends of every edge are ids of nodes. *)
Theorem built_network_is_consistent (py : interp) (data : json)
  (net : Pyvis.network) :
  App.build_network py data = Ok (Some net) -> consistent net.
Proof.
  intros H. destruct (NetFacts.build_network_steps py data net H)
    as (mid & Hn & He).
  eapply NetFacts.add_edges_consistent; [exact He|].
  eapply NetFacts.add_nodes_consistent; [exact Hn|].
  apply NetFacts.consistent_empty.
Qed.

Lemma built_network_is_consistent_witness :
  consistent {| Pyvis.nodes := [rendered_node_a];
                Pyvis.node_ids := [JStr "A"];
                Pyvis.edges := [] |}.
Proof.
  apply (built_network_is_consistent cpython (JArr [node_a])). reflexivity.
Defined.

(** X16. A node entry whose id is a string that the network already has is
    ignored: the first entry with an id decides label, tooltip, colour and
    size of the node. *)
Theorem duplicate_node_is_ignored (py : interp) (net : Pyvis.network)
  (node : json) (c : App.add_node_call) (s : string) (l : list json) :
  App.node_call py node = Ok c ->
  App.arg_id c = JStr s ->
  Py.mem (JStr s) (Pyvis.node_ids net) = true ->
  App.add_nodes py net (node :: l) = App.add_nodes py net l.
Proof.
  intros Hc Hid Hm. cbn [App.add_nodes]. rewrite Hc. cbn [res_bind].
  unfold Pyvis.add_node. rewrite Hid, Hm. reflexivity.
Qed.

Lemma duplicate_node_is_ignored_witness :
  App.add_nodes cpython
    {| Pyvis.nodes := [rendered_node_a]; Pyvis.node_ids := [JStr "A"];
       Pyvis.edges := [] |}
    [JObj [("id", JStr "A"); ("group", JStr "Seed")]]
  = App.add_nodes cpython
      {| Pyvis.nodes := [rendered_node_a]; Pyvis.node_ids := [JStr "A"];
         Pyvis.edges := [] |} [].
Proof.
  eapply (duplicate_node_is_ignored cpython _
            (JObj [("id", JStr "A"); ("group", JStr "Seed")]) _ "A" []);
    reflexivity.
Defined.

(** X17. The network has at most one node per node entry and at most one
    edge per edge entry. *)
Theorem network_size_is_bounded (py : interp) (data : json)
  (net : Pyvis.network) :
  App.build_network py data = Ok (Some net) ->
  (List.length (Pyvis.nodes net) <= List.length (entries data "nodes"))%nat
  /\ (List.length (Pyvis.edges net) <= List.length (entries data "edges"))%nat.
Proof.
  intros H. destruct (NetFacts.build_network_steps py data net H)
    as (mid & Hn & He).
  pose proof (RenderFacts.add_nodes_size py _ _ _ Hn) as Hsize.
  pose proof (AppFacts.add_nodes_edges py _ _ _ Hn) as Hedges.
  apply RenderFacts.add_edges_size in He as [Hnodes Hl].
  rewrite Hnodes, Hedges in *. cbn in *. lia.
Qed.

Lemma network_size_is_bounded_witness :
  (List.length [rendered_node_a] <= List.length (entries (JArr [node_a]) "nodes"))%nat
  /\ (List.length (@nil Pyvis.edge_options)
      <= List.length (entries (JArr [node_a]) "edges"))%nat.
Proof.
  apply (network_size_is_bounded cpython (JArr [node_a])
           {| Pyvis.nodes := [rendered_node_a]; Pyvis.node_ids := [JStr "A"];
              Pyvis.edges := [] |}).
  reflexivity.
Defined.

(** X18. A network comes out only if every node entry and every edge entry
    is a dict: one entry of another type (a string, a number, a list)
    aborts the rendering. *)
Theorem network_needs_dict_entries (py : interp) (data : json)
  (net : Pyvis.network) :
  App.build_network py data = Ok (Some net) ->
  forallb is_dict (entries data "nodes") = true
  /\ forallb is_dict (entries data "edges") = true.
Proof.
  intros H. destruct (NetFacts.build_network_steps py data net H)
    as (mid & Hn & He).
  split.
  - eapply RenderFacts.add_nodes_dicts; eassumption.
  - eapply RenderFacts.add_edges_dicts; eassumption.
Qed.

Lemma network_needs_dict_entries_witness :
  forallb is_dict (entries (JArr [node_a]) "nodes") = true
  /\ forallb is_dict (entries (JArr [node_a]) "edges") = true.
Proof.
  apply (network_needs_dict_entries cpython (JArr [node_a])
           {| Pyvis.nodes := [rendered_node_a]; Pyvis.node_ids := [JStr "A"];
              Pyvis.edges := [] |}).
  reflexivity.
Defined.

(** X19. An edge entry with a source and a target of which one is not the
    id of a node aborts the rendering with [AssertionError], whatever
    entries follow it. *)
Theorem unknown_end_aborts (net : Pyvis.network) (d : list (string * json))
  (l : list json) :
  let source := Py.lookup d "source" JNull in
  let target := Py.lookup d "target" JNull in
  Py.truthy source = true -> Py.truthy target = true ->
  Py.mem source (Pyvis.node_ids net) && Py.mem target (Pyvis.node_ids net)
  = false ->
  App.add_edges net (JObj d :: l) = Raise AssertionError.
Proof.
  cbv zeta. intros Hs Ht Hm. cbn [App.add_edges].
  unfold App.edge_call. cbn [Py.get res_bind]. rewrite Hs, Ht.
  cbn [andb res_bind App.arg_source App.arg_target App.arg_edge_label].
  unfold Pyvis.add_edge.
  destruct (Py.mem (Py.lookup d "source" JNull) (Pyvis.node_ids net));
    [|reflexivity].
  cbn [andb] in Hm. now rewrite Hm.
Qed.

Lemma unknown_end_aborts_witness :
  App.add_edges
    {| Pyvis.nodes := [rendered_node_a]; Pyvis.node_ids := [JStr "A"];
       Pyvis.edges := [] |}
    [edge_between "A" "B"; edge_between "A" "A"]
  = Raise AssertionError.
Proof.
  apply (unknown_end_aborts
           {| Pyvis.nodes := [rendered_node_a]; Pyvis.node_ids := [JStr "A"];
              Pyvis.edges := [] |}
           [("source", JStr "A"); ("target", JStr "B")]
           [edge_between "A" "A"]); reflexivity.
Defined.

(** X20. An edge entry between two nodes that an edge already joins, in
    either direction, changes nothing: its label is lost. *)
Theorem joined_ends_are_ignored (net : Pyvis.network)
  (d : list (string * json)) (l : list json) :
  let source := Py.lookup d "source" JNull in
  let target := Py.lookup d "target" JNull in
  Py.truthy source = true -> Py.truthy target = true ->
  Py.mem source (Pyvis.node_ids net) = true ->
  Py.mem target (Pyvis.node_ids net) = true ->
  Pyvis.joined net source target = true ->
  App.add_edges net (JObj d :: l) = App.add_edges net l.
Proof.
  cbv zeta. intros Hs Ht Hms Hmt Hj. cbn [App.add_edges].
  unfold App.edge_call. cbn [Py.get res_bind]. rewrite Hs, Ht.
  cbn [andb res_bind App.arg_source App.arg_target App.arg_edge_label].
  unfold Pyvis.add_edge. now rewrite Hms, Hmt, Hj.
Qed.

Lemma joined_ends_are_ignored_witness :
  App.add_edges small_network
    [JObj [("source", JStr "B"); ("target", JStr "A"); ("label", JStr "Absurd")]]
  = App.add_edges small_network [].
Proof.
  apply (joined_ends_are_ignored small_network
           [("source", JStr "B"); ("target", JStr "A"); ("label", JStr "Absurd")]
           []); reflexivity.
Defined.

(** X21. A non-empty dict that has edges but no [nodes] key is not a graph:
    the renderer returns [None] without touching the file system, and the
    main block shows the visualization-failure banner. *)
Theorem dict_without_nodes_is_rejected (py : interp)
  (save_graph : Pyvis.network -> res string) (d : list (string * json)) :
  Py.dict_get "nodes" d = None ->
  Py.truthy (Py.lookup d "edges" JNull) = true ->
  App.visualize_network py save_graph (JObj d) = ([], Ok None)
  /\ App.display_results py save_graph (JObj d)
     = ([StError App.failed_text None], Ok tt).
Proof.
  intros Hn He.
  assert (Hv : App.visualize_network py save_graph (JObj d) = ([], Ok None)).
  { unfold App.visualize_network, App.build_network, Py.dict_has.
    now rewrite Hn. }
  split; [exact Hv|].
  unfold App.display_results.
  assert (Ht : Py.truthy (JObj d) = true).
  { destruct d; [|reflexivity]. discriminate. }
  rewrite Ht. cbn [Py.get]. now rewrite He, Hv.
Qed.

Lemma dict_without_nodes_is_rejected_witness :
  App.visualize_network cpython (fun _ => Raise OSError)
    (JObj [("edges", JArr [edge_between "A" "B"])]) = ([], Ok None)
  /\ App.display_results cpython (fun _ => Raise OSError)
       (JObj [("edges", JArr [edge_between "A" "B"])])
     = ([StError App.failed_text None], Ok tt).
Proof.
  apply (dict_without_nodes_is_rejected cpython (fun _ => Raise OSError)
           [("edges", JArr [edge_between "A" "B"])]); reflexivity.
Defined.

(** X22. When the network was built and saving it raises, the renderer
    reports the exception in a banner and returns [None]; the main block
    adds the visualization-failure banner, and nothing is raised. *)
Theorem save_failure_is_reported (py : interp)
  (save_graph : Pyvis.network -> res string) (d : list (string * json))
  (net : Pyvis.network) (e : exc) :
  Py.truthy (Py.lookup d "edges" JNull) = true ->
  App.build_network py (JObj d) = Ok (Some net) ->
  save_graph net = Raise e ->
  App.visualize_network py save_graph (JObj d)
  = ([StError App.html_error_text (Some e)], Ok None)
  /\ App.display_results py save_graph (JObj d)
     = ([StError App.html_error_text (Some e); StError App.failed_text None],
        Ok tt).
Proof.
  intros He Hb Hs.
  assert (Hv : App.visualize_network py save_graph (JObj d)
               = ([StError App.html_error_text (Some e)], Ok None)).
  { unfold App.visualize_network. now rewrite Hb, Hs. }
  split; [exact Hv|].
  unfold App.display_results.
  assert (Ht : Py.truthy (JObj d) = true).
  { destruct d; [|reflexivity]. discriminate. }
  rewrite Ht. cbn [Py.get]. now rewrite He, Hv.
Qed.

Lemma save_failure_is_reported_witness :
  App.visualize_network cpython (fun _ => Raise OSError) (JObj small_graph)
  = ([StError App.html_error_text (Some OSError)], Ok None)
  /\ App.display_results cpython (fun _ => Raise OSError) (JObj small_graph)
     = ([StError App.html_error_text (Some OSError);
         StError App.failed_text None], Ok tt).
Proof.
  apply (save_failure_is_reported cpython (fun _ => Raise OSError)
           small_graph small_network OSError); reflexivity.
Defined.

(** X23. When the network was built and saving it gives a document that is
    not empty, the main block shows that document, with the custom style
    put before every end tag of the head, at height 770, followed by the
    success banner; the document shown is never empty. *)
Theorem rendered_document_is_shown (py : interp)
  (save_graph : Pyvis.network -> res string) (d : list (string * json))
  (net : Pyvis.network) (html : string) :
  Py.truthy (Py.lookup d "edges" JNull) = true ->
  App.build_network py (JObj d) = Ok (Some net) ->
  save_graph net = Ok html -> html <> "" ->
  let final_html :=
    PyStr.replace html "</head>" (App.custom_style ++ "</head>") in
  final_html <> ""
  /\ App.display_results py save_graph (JObj d)
     = ([ComponentsHtml final_html 770; StSuccess App.success_text], Ok tt).
Proof.
  intros He Hb Hs Hne final_html.
  assert (Hf : final_html <> "").
  { apply RenderFacts.replace_not_empty; [exact Hne|discriminate]. }
  split; [exact Hf|].
  unfold App.display_results.
  assert (Ht : Py.truthy (JObj d) = true).
  { destruct d; [|reflexivity]. discriminate. }
  rewrite Ht. cbn [Py.get]. rewrite He. cbn [negb].
  unfold App.visualize_network. rewrite Hb, Hs. fold final_html.
  destruct final_html; [congruence|reflexivity].
Qed.

Lemma rendered_document_is_shown_witness :
  PyStr.replace "<head></head>" "</head>" (App.custom_style ++ "</head>") <> ""
  /\ App.display_results cpython (fun _ => Ok "<head></head>") (JObj small_graph)
     = ([ComponentsHtml
           (PyStr.replace "<head></head>" "</head>"
              (App.custom_style ++ "</head>")) 770;
         StSuccess App.success_text], Ok tt).
Proof.
  apply (rendered_document_is_shown cpython (fun _ => Ok "<head></head>")
           small_graph small_network "<head></head>");
    try reflexivity. discriminate.
Defined.

(** X24. A saved document without an end tag of the head is returned as it
    is: the custom style is not put into it. *)
Theorem document_without_head_is_unchanged (py : interp)
  (save_graph : Pyvis.network -> res string) (data : json)
  (net : Pyvis.network) (html : string) :
  App.build_network py data = Ok (Some net) ->
  save_graph net = Ok html ->
  PyStr.contains "</head>" html = false ->
  App.visualize_network py save_graph data = ([], Ok (Some html)).
Proof.
  intros Hb Hs Hc. unfold App.visualize_network. rewrite Hb, Hs.
  now rewrite StrFacts.replace_absent by (discriminate || exact Hc).
Qed.

Lemma document_without_head_is_unchanged_witness :
  App.visualize_network cpython (fun _ => Ok "<svg/>") (JObj small_graph)
  = ([], Ok (Some "<svg/>")).
Proof.
  apply (document_without_head_is_unchanged cpython (fun _ => Ok "<svg/>")
           (JObj small_graph) small_network "<svg/>"); reflexivity.
Defined.

(** X25. The exceptions that can leave the result handling of the main
    block are [AttributeError], [TypeError] and [AssertionError]; an
    exception of saving the graph never does. *)
Theorem display_results_escapes (py : interp)
  (save_graph : Pyvis.network -> res string) (data : json)
  (evs : list event) (e : exc) :
  App.display_results py save_graph data = (evs, Raise e) ->
  evs = [] /\ (e = AttributeError \/ e = TypeError \/ e = AssertionError).
Proof.
  unfold App.display_results.
  destruct (Py.truthy data); [|discriminate].
  destruct (Py.get data "edges" JNull) as [edges|e0] eqn:Eg.
  - destruct (negb (Py.truthy edges)); [discriminate|].
    unfold App.visualize_network.
    destruct (App.build_network py data) as [[net|]|e0] eqn:Eb.
    + destruct (save_graph net) as [html|e1].
      * destruct (PyStr.replace html _ _); discriminate.
      * discriminate.
    + discriminate.
    + intros H; injection H as <- <-. split; [reflexivity|].
      exact (RenderFacts.build_network_raises _ _ _ Eb).
  - intros H; injection H as <- <-. split; [reflexivity|].
    destruct data; cbn in Eg; try (injection Eg as <-; now left). discriminate.
Qed.

Lemma display_results_escapes_witness :
  (@nil event) = [] /\ (AssertionError = AttributeError
                        \/ AssertionError = TypeError
                        \/ AssertionError = AssertionError).
Proof.
  apply (display_results_escapes cpython (fun _ => Raise OSError)
           dangling_graph [] AssertionError).
  reflexivity.
Defined.

(** X26. Whenever the client returns a false value ([None], an empty list,
    an empty dict, zero, an empty string), the main block ends with the
    no-response banner after whatever the client showed; so a rate-limited
    call shows two banners. *)
Theorem falsy_data_is_no_response (py : interp) (server : nat -> http_reply)
  (save_graph : Pyvis.network -> res string) :
  Py.truthy (snd (App.get_recommendations py server)) = false ->
  App.main py server save_graph
  = ((fst (App.get_recommendations py server)
      ++ [StError App.no_response_text None])%list, Ok tt).
Proof.
  intros H. unfold App.main.
  destruct (App.get_recommendations py server) as [evs data]. cbn [fst snd] in *.
  unfold App.display_results. now rewrite H.
Qed.

Lemma falsy_data_is_no_response_witness :
  App.main cpython (fun _ => Reply 429 "") (fun _ => Raise OSError)
  = ([Post; StError App.rate_limit_text None;
      StError App.no_response_text None], Ok tt).
Proof.
  apply (falsy_data_is_no_response cpython (fun _ => Reply 429 "")
           (fun _ => Raise OSError)).
  reflexivity.
Defined.
